(** * Bot.py: a Telegram to Gemini relay

    A shallow embedding of [src/Bot.py]: the values that [response.json()]
    hands back, the Python operations the two response normalizers apply to
    them, the request payloads, the two inference calls with their
    catch-all handlers, and the two message handlers of the dispatcher. *)

From Stdlib Require Import ZArith NArith Lia Bool Ascii String List.
From Stdlib Require Import Strings.Byte Floats.SpecFloat.
From stdpp Require Import base option gmap strings list.

Local Open Scope string_scope.
Local Set Warnings "-register-all".

(** ** Python values

    What [json.loads] produces: [None], [bool], [int], [float], [str],
    [list] and [dict] with [str] keys.  A [bytes] object appears only as
    the image handed to [call_gemini_with_image].  A [str] is a Rocq
    [string], one [ascii] per character. *)

#[local] Unset Elimination Schemes.
Inductive pyval : Type :=
| PNone
| PBool (b : bool)
| PInt (n : Z)
| PFloat (f : spec_float)
| PStr (s : string)
| PList (l : list pyval)
| PDict (d : gmap string pyval).
#[local] Set Elimination Schemes.

(** ** Exceptions

    Every exception below is a subclass of [Exception], which is what the
    two [except Exception] clauses of the source catch.  A [TypeError]
    records the operation refused ([in], [len] or [[]]) and its operand;
    [Timeout] and [ConnectionError] come from [requests.post], [HTTPError]
    from [raise_for_status], [JSONDecodeError] from [response.json()] and
    [TelegramError] from the calls to the chat platform. *)

Inductive pyexc : Type :=
| TypeError (operation : string) (operand : pyval)
| KeyError (key : pyval)
| IndexError (container : pyval)
| AttributeError (object : pyval) (attribute : string)
| Timeout (why : string)
| ConnectionError (why : string)
| HTTPError (status : Z)
| JSONDecodeError (why : string)
| TelegramError (why : string).

(** The outcome of evaluating a Python expression or statement. *)
Inductive outcome (A : Type) : Type :=
| Return (a : A)
| Raise (e : pyexc).
Arguments Return {A} a.
Arguments Raise {A} e.

#[global] Instance outcome_ret : MRet outcome := @Return.
#[global] Instance outcome_bind : MBind outcome := fun A B k m =>
  match m with
  | Return a => k a
  | Raise e => Raise e
  end.

(** Python's short-circuit [and] on conditions that may raise: the right
    operand is evaluated only when the left one is true. *)
Definition and_then (a b : outcome bool) : outcome bool :=
  match a with
  | Return true => b
  | Return false => Return false
  | Raise e => Raise e
  end.

Notation "a 'andalso' b" := (and_then a b)
  (at level 59, left associativity).

(** ** Operations on values *)

(** [needle in hay] for two [str]: substring test. *)
Fixpoint str_contains (needle hay : string) : bool :=
  String.prefix needle hay ||
  match hay with
  | EmptyString => false
  | String _ rest => str_contains needle rest
  end.

(** [v == key] for a [str] literal [key]: only an equal [str] compares equal. *)
Definition eq_str (key : string) (v : pyval) : bool :=
  match v with
  | PStr s => String.eqb key s
  | _ => false
  end.

(** [key in v] for a [str] literal [key]. *)
Definition py_in (key : string) (v : pyval) : outcome bool :=
  match v with
  | PDict d => Return (bool_decide (is_Some (d !! key)))
  | PList l => Return (existsb (eq_str key) l)
  | PStr s => Return (str_contains key s)
  | _ => Raise (TypeError "in" v)
  end.

(** [len(v)]. *)
Definition py_len (v : pyval) : outcome Z :=
  match v with
  | PDict d => Return (Z.of_nat (size d))
  | PList l => Return (Z.of_nat (length l))
  | PStr s => Return (Z.of_nat (String.length s))
  | _ => Raise (TypeError "len" v)
  end.

(** [v[key]] for a [str] literal [key].  A [list] or a [str] refuses a
    [str] index, the other classes are not subscriptable. *)
Definition py_item (v : pyval) (key : string) : outcome pyval :=
  match v with
  | PDict d =>
      match d !! key with
      | Some x => Return x
      | None => Raise (KeyError (PStr key))
      end
  | _ => Raise (TypeError "[]" v)
  end.

(** [v[0]].  The keys of a decoded JSON object are all [str], so [0] is
    never a key of a [dict]. *)
Definition py_item0 (v : pyval) : outcome pyval :=
  match v with
  | PList (x :: _) => Return x
  | PList [] => Raise (IndexError v)
  | PStr (String c _) => Return (PStr (String c EmptyString))
  | PStr EmptyString => Raise (IndexError v)
  | PDict _ => Raise (KeyError (PInt 0))
  | _ => Raise (TypeError "[]" v)
  end.

(** [v.get(key, default)]: only a [dict] has the method. *)
Definition py_get (v : pyval) (key : string) (default : pyval) : outcome pyval :=
  match v with
  | PDict d =>
      match d !! key with
      | Some x => Return x
      | None => Return default
      end
  | _ => Raise (AttributeError v "get")
  end.

(** [bool(v)], the truth value an [if] tests. *)
Definition py_truthy (v : pyval) : bool :=
  match v with
  | PNone => false
  | PBool b => b
  | PInt n => negb (Z.eqb n 0)
  | PFloat (S754_zero _) => false
  | PFloat _ => true
  | PStr s => negb (String.eqb s "")
  | PList l => negb (Nat.eqb (length l) 0)
  | PDict d => negb (Nat.eqb (size d) 0)
  end.

(** ** Base64

    [base64.b64encode] of the standard library (RFC 4648, standard
    alphabet, [=] padding): three bytes form a 24-bit group that is cut
    into four 6-bit indices into the alphabet; a final group of one or
    two bytes is padded with zero bits and [=] signs. *)

Local Open Scope N_scope.

Definition b64_alphabet : list byte :=
  list_byte_of_string
    "ABCDEFGHIJKLMNOPQRSTUVWXYZabcdefghijklmnopqrstuvwxyz0123456789+/".

Definition b64_pad : byte := x3d.

Definition b64_char (i : N) : byte := nth (N.to_nat i) b64_alphabet b64_pad.

Definition group24 (a b c : byte) : N :=
  Byte.to_N a * 65536 + Byte.to_N b * 256 + Byte.to_N c.

Fixpoint b64encode (bs : list byte) : list byte :=
  match bs with
  | [] => []
  | [a] =>
      let n := group24 a x00 x00 in
      [b64_char (n / 262144); b64_char (n / 4096 mod 64); b64_pad; b64_pad]
  | [a; b] =>
      let n := group24 a b x00 in
      [b64_char (n / 262144); b64_char (n / 4096 mod 64);
       b64_char (n / 64 mod 64); b64_pad]
  | a :: b :: c :: rest =>
      let n := group24 a b c in
      b64_char (n / 262144) :: b64_char (n / 4096 mod 64) ::
      b64_char (n / 64 mod 64) :: b64_char (n mod 64) :: b64encode rest
  end.

(** [bytes.decode('utf-8')] on ASCII-only bytes, which is all that
    [b64encode] produces: each byte is the character of the same code. *)
Definition decode_ascii (bs : list byte) : string := string_of_list_byte bs.

(** The inverse direction, [base64.b64decode] on a well-formed input: the
    reference decoder the round trip is measured against. *)
Fixpoint index_from (c : byte) (l : list byte) (i : N) : option N :=
  match l with
  | [] => None
  | x :: rest => if Byte.eqb x c then Some i else index_from c rest (N.succ i)
  end.

Definition b64_index (c : byte) : option N := index_from c b64_alphabet 0.

Definition is_pad (c : byte) : bool := Byte.eqb c b64_pad.

Fixpoint b64decode_bytes (cs : list byte) : option (list byte) :=
  match cs with
  | [] => Some []
  | c0 :: c1 :: c2 :: c3 :: rest =>
      match b64_index c0, b64_index c1 with
      | Some s0, Some s1 =>
          if is_pad c3 && match rest with [] => true | _ => false end then
            if is_pad c2 then
              b0 ← Byte.of_N ((s0 * 262144 + s1 * 4096) / 65536);
              Some [b0]
            else
              s2 ← b64_index c2;
              let n := s0 * 262144 + s1 * 4096 + s2 * 64 in
              b0 ← Byte.of_N (n / 65536);
              b1 ← Byte.of_N (n / 256 mod 256);
              Some [b0; b1]
          else
            s2 ← b64_index c2;
            s3 ← b64_index c3;
            let n := s0 * 262144 + s1 * 4096 + s2 * 64 + s3 in
            b0 ← Byte.of_N (n / 65536);
            b1 ← Byte.of_N (n / 256 mod 256);
            b2 ← Byte.of_N (n mod 256);
            tail ← b64decode_bytes rest;
            Some (b0 :: b1 :: b2 :: tail)
      | _, _ => None
      end
  | _ => None
  end.

Definition b64decode (s : string) : option (list byte) :=
  b64decode_bytes (list_byte_of_string s).

(** The 64 indices, and the check that each one survives the alphabet. *)
Definition sextets : list N := map N.of_nat (seq 0 64).

Definition sextet_ok (i : N) : bool :=
  match b64_index (b64_char i) with
  | Some j => N.eqb i j && negb (is_pad (b64_char i))
  | None => false
  end.

Local Close Scope N_scope.

(** ** Request payloads (the [data] dictionaries of the source) *)

Definition text_part (prompt : string) : pyval :=
  PDict {[ "text" := PStr prompt ]}.

Definition inline_data_part (mime_type base64_data : string) : pyval :=
  PDict {[ "inlineData" :=
             PDict (<[ "mimeType" := PStr mime_type ]>
                      {[ "data" := PStr base64_data ]}) ]}.

Definition contents_of (parts : list pyval) : pyval :=
  PDict {[ "contents" := PList [ PDict {[ "parts" := PList parts ]} ] ]}.

(** [data] of [call_gemini_api]. *)
Definition text_request (prompt : string) : pyval :=
  contents_of [ text_part prompt ].

(** [data] of [call_gemini_with_image]. *)
Definition image_request (prompt : string) (image_bytes : list byte) : pyval :=
  let base64_image := decode_ascii (b64encode image_bytes) in
  contents_of [ text_part prompt; inline_data_part "image/jpeg" base64_image ].

(** ** Results

    Each [return] of the two inference functions hands back one [str]; the
    variant records which [return] it was and [render] gives the object
    returned.  [Text] is the value found under (or defaulted for) the
    [text] key, returned as it is: the source does not check that it is a
    [str], so the payload is a value, not a string. *)

Inductive InferenceResult : Type :=
| Text (text : pyval)
| Blocked (reason : pyval)
| Stopped (reason : pyval)
| MalformedResponse (diagnostic : string)
| TransportError (apology : string) (cause : pyexc).

(** ** The world outside: network, chat platform, log *)

Record response := {
  status_code : Z;
  json : outcome pyval            (* what [response.json()] does *)
}.

Record request := {
  req_headers : gmap string string;
  req_json : pyval;
  req_timeout : Z
}.

Inductive bot_call : Type :=
| SendChatAction (chat : Z) (action : string)
| ReplyText (text : pyval)
| GetFile (file_id : string)
| Download (file_id : string).

Inductive log_record : Type :=
| LogInfo (message : string)
| LogError (message : string) (cause : pyexc).

Record world := {
  network : nat -> outcome response;  (* the k-th [requests.post] *)
  posted : list request;              (* requests made, oldest first *)
  telegram : nat -> option pyexc;     (* the k-th Bot API call fails with *)
  called : list bot_call;             (* Bot API calls made, oldest first *)
  log : list log_record               (* records written, oldest first *)
}.

(** Statements run in a world and either return or raise. *)
Definition M (A : Type) : Type := world -> outcome A * world.

#[global] Instance M_ret : MRet M := fun A a w => (Return a, w).
#[global] Instance M_bind : MBind M := fun A B k m w =>
  match m w with
  | (Return a, w') => k a w'
  | (Raise e, w') => (Raise e, w')
  end.

Definition lift {A} (o : outcome A) : M A := fun w => (o, w).

(** [try: body except Exception as e: handler e]. *)
Definition try_except {A} (body : M A) (handler : pyexc -> M A) : M A :=
  fun w =>
    match body w with
    | (Return a, w') => (Return a, w')
    | (Raise e, w') => handler e w'
    end.

Definition record_post (q : request) (w : world) : world :=
  {| network := network w; posted := posted w ++ [q];
     telegram := telegram w; called := called w; log := log w |}.

Definition record_call (c : bot_call) (w : world) : world :=
  {| network := network w; posted := posted w;
     telegram := telegram w; called := called w ++ [c]; log := log w |}.

Definition record_log (r : log_record) (w : world) : world :=
  {| network := network w; posted := posted w;
     telegram := telegram w; called := called w; log := log w ++ [r] |}.

Definition requests_post (headers : gmap string string) (data : pyval)
    (timeout : Z) : M response :=
  fun w =>
    (network w (length (posted w)),
     record_post {| req_headers := headers; req_json := data;
                    req_timeout := timeout |} w).

(** [Response.raise_for_status] of the requests library raises
    [HTTPError] for the client and server error statuses, 400 to 599. *)
Definition raise_for_status (r : response) : outcome unit :=
  if (400 <=? status_code r)%Z && (status_code r <? 600)%Z
  then Raise (HTTPError (status_code r))
  else Return tt.

Definition write_log (r : log_record) : M unit :=
  fun w => (Return tt, record_log r w).

Definition bot_api (c : bot_call) : M unit :=
  fun w =>
    match telegram w (length (called w)) with
    | Some e => (Raise e, record_call c w)
    | None => (Return tt, record_call c w)
    end.

(** ** The text flow: [call_gemini_api] *)

Definition json_headers : gmap string string :=
  {[ "Content-Type" := "application/json" ]}.

(** Lines 41 to 52: the branches applied to [response_json]. *)
Definition normalize_text (response_json : pyval) : outcome InferenceResult :=
  has_candidates ←
    py_in "candidates" response_json andalso
    (candidates ← py_item response_json "candidates";
     n ← py_len candidates;
     Return (0 <? n)%Z);
  if (has_candidates : bool) then
    candidates ← py_item response_json "candidates";
    candidate ← py_item0 candidates;
    has_parts ←
      py_in "content" candidate andalso
      (content ← py_item candidate "content"; py_in "parts" content) andalso
      (content ← py_item candidate "content";
       parts ← py_item content "parts";
       n ← py_len parts;
       Return (0 <? n)%Z);
    if (has_parts : bool) then
      content ← py_item candidate "content";
      parts ← py_item content "parts";
      part ← py_item0 parts;
      text ← py_get part "text" (PStr "No text found in the response.");
      Return (Text text)
    else
      has_reason ← py_in "finishReason" candidate;
      if (has_reason : bool) then
        reason ← py_item candidate "finishReason";
        Return (Stopped reason)
      else
        Return (MalformedResponse
          "Failed to process the response from the AI (unexpected structure).")
  else
    has_block ←
      py_in "promptFeedback" response_json andalso
      (feedback ← py_item response_json "promptFeedback";
       py_in "blockReason" feedback);
    if (has_block : bool) then
      feedback ← py_item response_json "promptFeedback";
      reason ← py_item feedback "blockReason";
      Return (Blocked reason)
    else
      Return (MalformedResponse "Failed to get a valid response from the AI.").

(** Lines 36 to 52: the body of the [try]. *)
Definition text_attempt (data : pyval) : M InferenceResult :=
  response ← requests_post json_headers data 60;
  _ ← lift (raise_for_status response);
  response_json ← lift (json response);
  lift (normalize_text response_json).

Definition call_gemini_api (prompt : string) : M InferenceResult :=
  let data := text_request prompt in
  try_except (text_attempt data)
    (fun e =>
       _ ← write_log (LogError "Error during request to Gemini API: " e);
       mret (TransportError "Sorry, an error occurred: " e)).

(** ** The image flow: [call_gemini_with_image] *)

(** Lines 84 to 87. *)
Definition normalize_image (response_json : pyval) : outcome InferenceResult :=
  has_candidates ←
    py_in "candidates" response_json andalso
    (candidates ← py_item response_json "candidates";
     Return (py_truthy candidates));
  if (has_candidates : bool) then
    candidates ← py_item response_json "candidates";
    candidate ← py_item0 candidates;
    content ← py_item candidate "content";
    parts ← py_item content "parts";
    part ← py_item0 parts;
    text ← py_get part "text" (PStr "No response text found.");
    Return (Text text)
  else
    Return (MalformedResponse "Couldn't get a valid response from the AI.").

(** Lines 79 to 87: the body of the [try]. *)
Definition image_attempt (data : pyval) : M InferenceResult :=
  response ← requests_post json_headers data 60;
  _ ← lift (raise_for_status response);
  response_json ← lift (json response);
  lift (normalize_image response_json).

Definition call_gemini_with_image (prompt : string) (image_bytes : list byte)
    : M InferenceResult :=
  let data := image_request prompt image_bytes in
  try_except (image_attempt data)
    (fun e =>
       _ ← write_log (LogError "Error processing image: " e);
       mret (TransportError "An error occurred: " e)).

(** ** Rendering and the dispatcher *)

Record photo_size := {
  file_id : string;
  file_content : list byte          (* what downloading the file yields *)
}.

Record message := {
  message_text : string;
  message_photo : list photo_size
}.

Record chat := { chat_id : Z }.

Record user := { username : option string }.

(** An [Update] of the chat platform.  [update.message] is [None] for an
    edited message or a channel post, [update.effective_user] for a
    channel post, [update.effective_chat] for an update outside any chat. *)
Record update := {
  update_message : option message;
  effective_chat : option chat;
  effective_user : option user
}.

(** [o.name] where [o] may be [None]: [None] has no attribute. *)
Definition attribute {A} (o : option A) (name : string) : outcome A :=
  match o with
  | Some a => Return a
  | None => Raise (AttributeError PNone name)
  end.

Section Relay.

(** [str(e)] of an exception and [str(v)] of a value that is not a
    [str], as the f-strings of the source format them. *)
Variable describe : pyexc -> string.
Variable py_repr : pyval -> string.

Definition format_value (v : pyval) : string :=
  match v with
  | PStr s => s
  | _ => py_repr v
  end.

(** The object a [return] of the inference functions hands back. *)
Definition render (r : InferenceResult) : pyval :=
  match r with
  | Text text => text
  | Blocked reason =>
      PStr ("Request blocked: " ++ format_value reason ++ ".")
  | Stopped reason =>
      PStr ("Generation stopped: " ++ format_value reason
            ++ ". Try a different question.")
  | MalformedResponse diagnostic => PStr diagnostic
  | TransportError apology cause => PStr (apology ++ describe cause)
  end.

Definition reply_text (text : pyval) : M unit := bot_api (ReplyText text).

(** Lines 113 to 122 of [handle_message], once [update.message],
    [update.effective_chat] and [update.effective_user] are at hand. *)
Definition answer_text (m : message) (c : chat) (who : user) : M unit :=
  let user_message := message_text m in
  let chat_id := chat_id c in
  _ ← write_log (LogInfo ("Text from "
                          ++ match username who with
                             | Some name => name
                             | None => "None"
                             end
                          ++ ": " ++ user_message));
  _ ← bot_api (SendChatAction chat_id "typing");
  ai_response ← call_gemini_api user_message;
  try_except (reply_text (render ai_response))
    (fun e =>
       _ ← write_log (LogError "Failed to send reply message: " e);
       reply_text (PStr "An error occurred while sending the reply.")).

(** Lines 111 to 113 read [update.message.text], [update.effective_chat.id]
    and [update.effective_user.username], in that order; each raises
    [AttributeError] when its object is [None]. *)
Definition handle_message (u : update) : M unit :=
  m ← lift (attribute (update_message u) "text");
  c ← lift (attribute (effective_chat u) "id");
  who ← lift (attribute (effective_user u) "username");
  answer_text m c who.

(** Lines 129 to 140 of [handle_image]. *)
Definition answer_photo (m : message) (c : chat) : M unit :=
  let chat_id := chat_id c in
  let photos := message_photo m in
  match last photos with
  | None => reply_text (PStr "No image found.")
  | Some largest =>
      _ ← bot_api (GetFile (file_id largest));
      _ ← bot_api (Download (file_id largest));
      let photo_bytes := file_content largest in
      let prompt := "What is in this image?" in
      _ ← bot_api (SendChatAction chat_id "typing");
      ai_response ← call_gemini_with_image prompt photo_bytes;
      reply_text (render ai_response)
  end.

(** Lines 126 and 127 read [update.effective_chat.id] and
    [update.message.photo], in that order. *)
Definition handle_image (u : update) : M unit :=
  c ← lift (attribute (effective_chat u) "id");
  m ← lift (attribute (update_message u) "photo");
  answer_photo m c.

End Relay.

(** ** Vocabulary of the specification

    JSON paths such as [candidates[0].content.parts[0].text]: a key selects
    in an object, an index in an array. *)

Inductive selector : Type :=
| Key (k : string)
| Index (i : nat).

Definition select (s : selector) (v : pyval) : option pyval :=
  match s, v with
  | Key k, PDict d => d !! k
  | Index i, PList l => l !! i
  | _, _ => None
  end.

Fixpoint at_path (path : list selector) (v : pyval) : option pyval :=
  match path with
  | [] => Some v
  | s :: rest => select s v ≫= at_path rest
  end.

Definition first_candidate : list selector := [Key "candidates"; Index 0].

Definition first_part : list selector :=
  first_candidate ++ [Key "content"; Key "parts"; Index 0].

(** The first candidate is an object that carries no part: it has no
    [content], or a [content] object without [parts], or an empty [parts]
    array. *)
Definition no_parts (response_json : pyval) : Prop :=
  (exists c, at_path first_candidate response_json = Some (PDict c)
             /\ c !! "content" = None)
  \/ (exists content,
        at_path (first_candidate ++ [Key "content"]) response_json
          = Some (PDict content)
        /\ content !! "parts" = None)
  \/ at_path (first_candidate ++ [Key "content"; Key "parts"]) response_json
       = Some (PList []).

(** A response that has no non-empty [candidates] array. *)
Definition lacks_candidates (response_json : pyval) : Prop :=
  forall c cs, at_path [Key "candidates"] response_json <> Some (PList (c :: cs)).

(** A transport-level failure of the HTTP call, with the exception the
    [try] body raises for it: [requests.post] itself raises (timeout,
    connection error), or the response has an error status. *)
Definition transport_failure (o : outcome response) (e : pyexc) : Prop :=
  o = Raise e
  \/ exists r, o = Return r
              /\ (400 <= status_code r < 600)%Z
              /\ e = HTTPError (status_code r).

(** A response with a success status whose body decodes to [j]. *)
Definition ok_response (j : pyval) : response :=
  {| status_code := 200; json := Return j |}.

(** A quiet world: nothing posted, called or logged yet, every post meets
    [o], every Bot API call meets [t]. *)
Definition world_serving (o : outcome response) (t : nat -> option pyexc)
    : world :=
  {| network := fun _ => o; posted := []; telegram := t; called := [];
     log := [] |}.

Definition obj (fields : list (string * pyval)) : pyval :=
  PDict (list_to_map fields).

(** The requests the two flows post. *)
Definition text_post (prompt : string) : request :=
  {| req_headers := json_headers; req_json := text_request prompt;
     req_timeout := 60 |}.

Definition image_post (prompt : string) (image_bytes : list byte) : request :=
  {| req_headers := json_headers; req_json := image_request prompt image_bytes;
     req_timeout := 60 |}.

(** ** Sample responses and events *)

(** [{"candidates": [{"content": {"parts": [{"text": "hello"}]}}]}] *)
Definition hello_response : pyval :=
  obj [("candidates",
        PList [obj [("content",
                     obj [("parts", PList [obj [("text", PStr "hello")]])])]])].

(** [{"candidates": [{"finishReason": "SAFETY"}]}] *)
Definition safety_response : pyval :=
  obj [("candidates", PList [obj [("finishReason", PStr "SAFETY")]])].

(** [{"promptFeedback": {"blockReason": "OTHER"}}] *)
Definition blocked_response : pyval :=
  obj [("promptFeedback", obj [("blockReason", PStr "OTHER")])].

(** [{"candidates": [{"content": {"parts": [{}]}, "finishReason": "STOP"}]}] *)
Definition textless_response : pyval :=
  obj [("candidates",
        PList [obj [("content", obj [("parts", PList [obj []])]);
                    ("finishReason", PStr "STOP")]])].

(** A status 300 answer whose body is the JSON object [{}]. *)
Definition multiple_choices : response :=
  {| status_code := 300; json := Return (obj []) |}.

Definition never_fails : nat -> option pyexc := fun _ => None.

(** The chat platform refuses the [k]-th call. *)
Definition fails_at (k : nat) (e : pyexc) : nat -> option pyexc :=
  fun i => if Nat.eqb i k then Some e else None.

Definition sample_photo : photo_size :=
  {| file_id := "AgAD"; file_content := [x4a; x46; x49; x46] |}.

(** An update that carries a message, its chat and its sender. *)
Definition inbound (m : message) (c : chat) (who : user) : update :=
  {| update_message := Some m; effective_chat := Some c;
     effective_user := Some who |}.

Definition sample_message : message :=
  {| message_text := "What is the capital of France?";
     message_photo := [sample_photo] |}.

Definition sample_chat : chat := {| chat_id := 42 |}.

Definition sample_user : user := {| username := Some "ash" |}.

Definition sample_update : update :=
  inbound sample_message sample_chat sample_user.

(** An edited message: the update has a chat and a sender but
    [update.message] is [None]. *)
Definition edited_update : update :=
  {| update_message := None; effective_chat := Some sample_chat;
     effective_user := Some sample_user |}.

(** [{"candidates": [{"content": {"parts": [{"text": null}]}}]}] *)
Definition null_text_response : pyval :=
  obj [("candidates",
        PList [obj [("content",
                     obj [("parts", PList [obj [("text", PNone)]])])]])].

(** [{"candidates": [{"content": null, "finishReason": "SAFETY"}]}] *)
Definition null_content_response : pyval :=
  obj [("candidates",
        PList [obj [("content", PNone); ("finishReason", PStr "SAFETY")]])].

Definition plain (_ : pyexc) : string := "boom".
Definition opaque_repr (_ : pyval) : string := "?".

(** * Theorems *)

(** ** Base64 round trip *)

Module Base64.

Local Open Scope N_scope.

Lemma sextet_listed (i : N) : i < 64 -> In i sextets.
Proof.
  intros Hi. unfold sextets.
  rewrite <- (N2Nat.id i). apply in_map, in_seq. lia.
Qed.

Lemma sextets_ok : forallb sextet_ok sextets = true.
Proof. vm_compute. reflexivity. Qed.

Lemma b64_index_char (i : N) : i < 64 -> b64_index (b64_char i) = Some i.
Proof.
  intros Hi.
  pose proof (proj1 (forallb_forall _ _) sextets_ok i (sextet_listed i Hi)) as H.
  unfold sextet_ok in H. destruct (b64_index (b64_char i)) as [j|]; [|discriminate].
  apply andb_true_iff in H. destruct H as [H _].
  apply N.eqb_eq in H. congruence.
Qed.

Lemma b64_char_not_pad (i : N) : i < 64 -> is_pad (b64_char i) = false.
Proof.
  intros Hi.
  pose proof (proj1 (forallb_forall _ _) sextets_ok i (sextet_listed i Hi)) as H.
  unfold sextet_ok in H. destruct (b64_index (b64_char i)) as [j|]; [|discriminate].
  apply andb_true_iff in H. destruct H as [_ H].
  apply negb_true_iff in H. exact H.
Qed.

Ltac euclid := Z.to_euclidean_division_equations; lia.

Lemma group24_bound a b c : group24 a b c < 16777216.
Proof.
  unfold group24.
  pose proof (Byte.to_N_bounded a). pose proof (Byte.to_N_bounded b).
  pose proof (Byte.to_N_bounded c). lia.
Qed.

Lemma regroup (n : N) :
  n < 16777216 ->
  n / 262144 * 262144 + n / 4096 mod 64 * 4096 + n / 64 mod 64 * 64 + n mod 64 = n.
Proof. intros Hn. zify. euclid. Qed.


Lemma byte0 a b c : group24 a b c / 65536 = Byte.to_N a.
Proof.
  unfold group24.
  pose proof (Byte.to_N_bounded a). pose proof (Byte.to_N_bounded b).
  pose proof (Byte.to_N_bounded c). zify. euclid.
Qed.

Lemma byte1 a b c : group24 a b c / 256 mod 256 = Byte.to_N b.
Proof.
  unfold group24.
  pose proof (Byte.to_N_bounded a). pose proof (Byte.to_N_bounded b).
  pose proof (Byte.to_N_bounded c). zify. euclid.
Qed.

Lemma byte2 a b c : group24 a b c mod 256 = Byte.to_N c.
Proof.
  unfold group24.
  pose proof (Byte.to_N_bounded a). pose proof (Byte.to_N_bounded b).
  pose proof (Byte.to_N_bounded c). zify. euclid.
Qed.

Lemma sextet0 n : n < 16777216 -> n / 262144 < 64.
Proof. intros. zify. euclid. Qed.

Lemma sextet_mod n : n mod 64 < 64.
Proof. zify. euclid. Qed.

Lemma regroup_one a :
  let n := group24 a x00 x00 in
  n / 262144 * 262144 + n / 4096 mod 64 * 4096 = n.
Proof.
  unfold group24. change (Byte.to_N x00) with 0.
  pose proof (Byte.to_N_bounded a). cbv zeta. zify. euclid.
Qed.

Lemma regroup_two a b :
  let n := group24 a b x00 in
  n / 262144 * 262144 + n / 4096 mod 64 * 4096 + n / 64 mod 64 * 64 = n.
Proof.
  unfold group24. change (Byte.to_N x00) with 0.
  pose proof (Byte.to_N_bounded a). pose proof (Byte.to_N_bounded b).
  cbv zeta. zify. euclid.
Qed.

Lemma list_ind3 {A} (P : list A -> Prop) :
  P [] -> (forall a, P [a]) -> (forall a b, P [a; b]) ->
  (forall a b c l, P l -> P (a :: b :: c :: l)) ->
  forall l, P l.
Proof.
  intros H0 H1 H2 H3. fix IH 1.
  intros [|a [|b [|c l]]]; [exact H0 | apply H1 | apply H2 | apply H3, IH].
Qed.

Lemma decode_quad c0 c1 c2 c3 rest :
  b64decode_bytes (c0 :: c1 :: c2 :: c3 :: rest) =
  match b64_index c0, b64_index c1 with
  | Some s0, Some s1 =>
      if is_pad c3 && match rest with [] => true | _ => false end then
        if is_pad c2 then
          b0 ← Byte.of_N ((s0 * 262144 + s1 * 4096) / 65536);
          Some [b0]
        else
          s2 ← b64_index c2;
          let n := s0 * 262144 + s1 * 4096 + s2 * 64 in
          b0 ← Byte.of_N (n / 65536);
          b1 ← Byte.of_N (n / 256 mod 256);
          Some [b0; b1]
      else
        s2 ← b64_index c2;
        s3 ← b64_index c3;
        let n := s0 * 262144 + s1 * 4096 + s2 * 64 + s3 in
        b0 ← Byte.of_N (n / 65536);
        b1 ← Byte.of_N (n / 256 mod 256);
        b2 ← Byte.of_N (n mod 256);
        tail ← b64decode_bytes rest;
        Some (b0 :: b1 :: b2 :: tail)
  | _, _ => None
  end.
Proof. reflexivity. Qed.

Lemma b64decode_bytes_encode (bs : list byte) :
  b64decode_bytes (b64encode bs) = Some bs.
Proof.
  induction bs as [|a|a b|a b c rest IH] using list_ind3.
  - reflexivity.
  - cbn [b64encode]. rewrite decode_quad.
    pose proof (group24_bound a x00 x00) as Hn.
    rewrite !b64_index_char by auto using sextet0, sextet_mod.
    change (is_pad b64_pad) with true. cbn [andb].
    rewrite regroup_one, byte0, Byte.of_to_N. reflexivity.
  - cbn [b64encode]. rewrite decode_quad.
    pose proof (group24_bound a b x00) as Hn.
    rewrite !b64_index_char by auto using sextet0, sextet_mod.
    change (is_pad b64_pad) with true. cbn [andb].
    rewrite b64_char_not_pad by apply sextet_mod.
    cbn [mbind option_bind]. cbv zeta.
    rewrite regroup_two, byte0, byte1, !Byte.of_to_N. reflexivity.
  - cbn [b64encode]. rewrite decode_quad.
    pose proof (group24_bound a b c) as Hn.
    rewrite !b64_index_char by auto using sextet0, sextet_mod.
    rewrite (b64_char_not_pad (group24 a b c mod 64)) by apply sextet_mod.
    cbn [andb mbind option_bind]. cbv zeta.
    rewrite regroup by exact Hn.
    rewrite byte0, byte1, byte2, !Byte.of_to_N, IH. reflexivity.
Qed.

(** The encoder produces ASCII only, so decoding its output as UTF-8
    cannot fail. *)
Lemma b64_char_ascii (i : N) : Byte.to_N (b64_char i) < 128.
Proof.
  assert (forallb (fun b => Byte.to_N b <? 128) (b64_pad :: b64_alphabet) = true)
    as Hall by (vm_compute; reflexivity).
  apply N.ltb_lt. apply (proj1 (forallb_forall _ _) Hall).
  unfold b64_char.
  destruct (nth_in_or_default (N.to_nat i) b64_alphabet b64_pad) as [Hin | ->];
    [right; exact Hin | left; reflexivity].
Qed.

Lemma b64encode_ascii (bs : list byte) :
  Forall (fun b => Byte.to_N b < 128) (b64encode bs).
Proof.
  induction bs as [|a|a b|a b c rest IH] using list_ind3; cbn [b64encode];
    repeat (constructor; [first [apply b64_char_ascii | reflexivity]|]);
    first [exact IH | constructor].
Qed.

(** The test vectors of RFC 4648, section 10. *)
Example rfc4648_vectors :
  map (fun s => decode_ascii (b64encode (list_byte_of_string s)))
    ["" ; "f"; "fo"; "foo"; "foob"; "fooba"; "foobar"]%string
  = ["" ; "Zg=="; "Zm8="; "Zm9v"; "Zm9vYg=="; "Zm9vYmE="; "Zm9vYmFy"]%string.
Proof. vm_compute. reflexivity. Qed.

End Base64.

(** ** Reading objects *)

Lemma py_in_present d k x : d !! k = Some x -> py_in k (PDict d) = Return true.
Proof. intros H. cbn. rewrite H. reflexivity. Qed.

Lemma py_in_absent (d : gmap string pyval) k :
  d !! k = None -> py_in k (PDict d) = Return false.
Proof. intros H. cbn. rewrite H. reflexivity. Qed.

Lemma py_item_present d k x : d !! k = Some x -> py_item (PDict d) k = Return x.
Proof. intros H. cbn. rewrite H. reflexivity. Qed.

Lemma at_path_key k rest j v :
  at_path (Key k :: rest) j = Some v ->
  exists d x, j = PDict d /\ d !! k = Some x /\ at_path rest x = Some v.
Proof.
  cbn. destruct j; cbn; try discriminate.
  destruct (d !! k) as [x|] eqn:E; cbn; [|discriminate].
  intros H. exists d, x. auto.
Qed.

Lemma at_path_index0 rest j v :
  at_path (Index 0 :: rest) j = Some v ->
  exists x l, j = PList (x :: l) /\ at_path rest x = Some v.
Proof.
  cbn. destruct j; cbn; try discriminate.
  destruct l as [|x l]; cbn; [discriminate|].
  intros H. exists x, l. auto.
Qed.

Lemma py_get_present d k x dflt :
  d !! k = Some x -> py_get (PDict d) k dflt = Return x.
Proof. intros H. cbn. rewrite H. reflexivity. Qed.

Lemma py_get_absent (d : gmap string pyval) k dflt :
  d !! k = None -> py_get (PDict d) k dflt = Return dflt.
Proof. intros H. cbn. rewrite H. reflexivity. Qed.

Lemma positive_length n : (0 <? Z.of_nat (S n))%Z = true.
Proof. apply Z.ltb_lt. lia. Qed.

Ltac same_lookup :=
  repeat match goal with
  | H1 : ?d !! ?k = Some _, H2 : ?d !! ?k = Some _ |- _ =>
      rewrite H1 in H2; simplify_eq
  end.

Ltac walk H :=
  cbn [first_part first_candidate app] in H;
  repeat first
    [ apply at_path_key in H;
      let d := fresh "d" in let x := fresh "x" in
      let Hj := fresh "Hj" in let E := fresh "E" in
      destruct H as (d & x & Hj & E & H); simplify_eq; same_lookup
    | apply at_path_index0 in H;
      let x := fresh "x" in let l := fresh "l" in
      let Hj := fresh "Hj" in
      destruct H as (x & l & Hj & H); simplify_eq ];
  cbn in H; simplify_eq.

Ltac step :=
  match goal with
  | H : ?d !! ?k = Some ?x |- context [py_in ?k (PDict ?d)] =>
      rewrite (py_in_present d k x H)
  | H : ?d !! ?k = None |- context [py_in ?k (PDict ?d)] =>
      rewrite (py_in_absent d k H)
  | H : ?d !! ?k = Some ?x |- context [py_item (PDict ?d) ?k] =>
      rewrite (py_item_present d k x H)
  | H : ?d !! ?k = Some ?x |- context [py_get (PDict ?d) ?k ?v] =>
      rewrite (py_get_present d k x v H)
  | H : ?d !! ?k = None |- context [py_get (PDict ?d) ?k ?v] =>
      rewrite (py_get_absent d k v H)
  | |- context [(0 <? Z.of_nat (S ?n))%Z] => rewrite (positive_length n)
  | |- _ => progress cbn [mbind outcome_bind and_then py_item0 py_len length]
  end.

Ltac run := repeat step.


Lemma bind_Return {A B} (m : outcome A) (k : A -> outcome B) b :
  m ≫= k = Return b -> exists a, m = Return a /\ k a = Return b.
Proof. destruct m as [a|e]; cbn; [eauto | discriminate]. Qed.

(** ** The branches of the text flow *)

Lemma normalize_text_text j v :
  at_path (first_part ++ [Key "text"]) j = Some v ->
  normalize_text j = Return (Text v).
Proof.
  intros H. walk H.
  unfold normalize_text. run. reflexivity.
Qed.

Lemma normalize_text_default j p :
  at_path first_part j = Some (PDict p) -> p !! "text" = None ->
  normalize_text j = Return (Text (PStr "No text found in the response.")).
Proof.
  intros H Hp. walk H.
  unfold normalize_text. run. reflexivity.
Qed.

Lemma normalize_text_stopped j r :
  at_path (first_candidate ++ [Key "finishReason"]) j = Some r ->
  no_parts j ->
  normalize_text j = Return (Stopped r).
Proof.
  intros H Hno. walk H.
  destruct Hno as [(c & Hc & Habsent) | [(content & Hc & Habsent) | Hc]];
    walk Hc; unfold normalize_text; run; reflexivity.
Qed.

Lemma normalize_text_blocked j r :
  at_path [Key "promptFeedback"; Key "blockReason"] j = Some r ->
  at_path [Key "candidates"] j = None ->
  normalize_text j = Return (Blocked r).
Proof.
  intros H Hc. walk H. cbn in Hc.
  destruct (d !! "candidates") as [c|] eqn:Ec; [discriminate|].
  unfold normalize_text. run. reflexivity.
Qed.

(** The response [{}] gets the generic diagnostic. *)
Example normalize_text_empty_object :
  normalize_text (obj [])
  = Return (MalformedResponse "Failed to get a valid response from the AI.").
Proof. reflexivity. Qed.

(** ** The image flow *)

Lemma normalize_image_variants j res :
  normalize_image j = Return res ->
  (exists v, res = Text v)
  \/ res = MalformedResponse "Couldn't get a valid response from the AI.".
Proof.
  unfold normalize_image. intros H.
  apply bind_Return in H as ([] & _ & H).
  - repeat (apply bind_Return in H as (? & _ & H)).
    injection H as <-. eauto.
  - injection H as <-. auto.
Qed.

Lemma normalize_image_lacking j :
  lacks_candidates j ->
  normalize_image j
    = Return (MalformedResponse "Couldn't get a valid response from the AI.")
  \/ exists e, normalize_image j = Raise e.
Proof.
  intros Hl. unfold normalize_image.
  destruct j; cbn; eauto.
  - destruct (str_contains "candidates" s); cbn; eauto.
  - destruct (existsb (eq_str "candidates") l); cbn; eauto.
  - destruct (d !! "candidates") as [c|] eqn:Ec; cbn; [|auto].
    destruct (py_truthy c) eqn:Et; cbn; [|auto].
    destruct c as [| | | | s | l | c]; cbn; eauto.
    + destruct s; cbn; eauto.
    + destruct l as [|x l]; [discriminate|].
      exfalso. apply (Hl x l). cbn. rewrite Ec. reflexivity.
Qed.

Lemma normalize_image_absent (d : gmap string pyval) :
  d !! "candidates" = None \/ d !! "candidates" = Some (PList []) ->
  normalize_image (PDict d)
    = Return (MalformedResponse "Couldn't get a valid response from the AI.").
Proof.
  intros [H|H]; unfold normalize_image; run; reflexivity.
Qed.

(** ** The two inference calls *)

Lemma call_gemini_api_eq prompt w :
  call_gemini_api prompt w =
  match network w (length (posted w))
        ≫= (λ r, raise_for_status r ≫= λ _, json r ≫= normalize_text) with
  | Return res => (Return res, record_post (text_post prompt) w)
  | Raise e =>
      (Return (TransportError "Sorry, an error occurred: " e),
       record_log (LogError "Error during request to Gemini API: " e)
         (record_post (text_post prompt) w))
  end.
Proof.
  unfold call_gemini_api, try_except, text_attempt, requests_post, lift, write_log.
  unfold mbind, M_bind, outcome_bind, mret, M_ret.
  destruct (network w (length (posted w))) as [r|e]; [|reflexivity].
  destruct (raise_for_status r) as [[]|e]; [|reflexivity].
  destruct (json r) as [j|e]; [|reflexivity].
  destruct (normalize_text j) as [res|e]; reflexivity.
Qed.

Lemma call_gemini_with_image_eq prompt image_bytes w :
  call_gemini_with_image prompt image_bytes w =
  match network w (length (posted w))
        ≫= (λ r, raise_for_status r ≫= λ _, json r ≫= normalize_image) with
  | Return res => (Return res, record_post (image_post prompt image_bytes) w)
  | Raise e =>
      (Return (TransportError "An error occurred: " e),
       record_log (LogError "Error processing image: " e)
         (record_post (image_post prompt image_bytes) w))
  end.
Proof.
  unfold call_gemini_with_image, try_except, image_attempt, requests_post, lift, write_log.
  unfold mbind, M_bind, outcome_bind, mret, M_ret.
  destruct (network w (length (posted w))) as [r|e]; [|reflexivity].
  destruct (raise_for_status r) as [[]|e]; [|reflexivity].
  destruct (json r) as [j|e]; [|reflexivity].
  destruct (normalize_image j) as [res|e]; reflexivity.
Qed.

Lemma success_passes r :
  (200 <= status_code r < 300)%Z -> raise_for_status r = Return tt.
Proof.
  intros H. unfold raise_for_status.
  destruct (400 <=? status_code r)%Z eqn:E; [|reflexivity].
  apply Z.leb_le in E. lia.
Qed.

Lemma failure_raises o e :
  transport_failure o e ->
  o ≫= (λ r, raise_for_status r ≫= λ _, json r ≫= normalize_text) = Raise e
  /\ o ≫= (λ r, raise_for_status r ≫= λ _, json r ≫= normalize_image) = Raise e.
Proof.
  intros [-> | (r & -> & Hs & ->)]; [split; reflexivity|].
  cbn. unfold raise_for_status.
  replace ((400 <=? status_code r)%Z && (status_code r <? 600)%Z) with true;
    [split; reflexivity|].
  symmetry. apply andb_true_iff. split; [apply Z.leb_le | apply Z.ltb_lt]; lia.
Qed.

Lemma call_gemini_api_returns prompt w :
  exists res w',
    call_gemini_api prompt w = (Return res, w')
    /\ posted w' = (posted w ++ [text_post prompt])%list
    /\ called w' = called w /\ telegram w' = telegram w.
Proof.
  rewrite call_gemini_api_eq.
  destruct (network w (length (posted w)) ≫= _) as [res|e];
    eexists _, _; (split; [reflexivity|]); auto.
Qed.

Lemma call_gemini_with_image_returns prompt image_bytes w :
  exists res w',
    call_gemini_with_image prompt image_bytes w = (Return res, w')
    /\ posted w' = (posted w ++ [image_post prompt image_bytes])%list
    /\ called w' = called w /\ telegram w' = telegram w
    /\ forall message e,
         In (LogError message e) (log w') ->
         In (LogError message e) (log w)
         \/ message = "Error processing image: ".
Proof.
  rewrite call_gemini_with_image_eq.
  destruct (network w (length (posted w)) ≫= _) as [res|e];
    eexists _, _; (split; [reflexivity|]); repeat split; auto.
  cbn. intros message e' Hin. apply in_app_or in Hin as [Hin|Hin]; [auto|].
  destruct Hin as [Hin|[]]. injection Hin as <- <-. auto.
Qed.

(** ** The claims about the text flow *)

(** C7. A response with [candidates[0].content.parts[0].text = "hello"]
    is normalized to [Text "hello"], which is returned as the string
    [hello] itself, also through [call_gemini_api]. *)
Theorem text_flow_hello (j : pyval) :
  at_path (first_part ++ [Key "text"]) j = Some (PStr "hello") ->
  normalize_text j = Return (Text (PStr "hello"))
  /\ (forall prompt t,
        fst (call_gemini_api prompt (world_serving (Return (ok_response j)) t))
        = Return (Text (PStr "hello")))
  /\ (forall describe py_repr,
        render describe py_repr (Text (PStr "hello")) = PStr "hello").
Proof.
  intros H. apply normalize_text_text in H.
  split; [exact H|]. split; [|reflexivity].
  intros prompt t. rewrite call_gemini_api_eq. cbn. rewrite H. reflexivity.
Qed.

Lemma text_flow_hello_witness :
  at_path (first_part ++ [Key "text"]) hello_response = Some (PStr "hello")
  /\ normalize_text hello_response = Return (Text (PStr "hello")).
Proof.
  split; [reflexivity|].
  apply (text_flow_hello hello_response). reflexivity.
Defined.

(** C8, as the specification states it, fails: a first candidate can be
    without parts because its [content] is [null], and then the test of
    line 43 raises instead of falling through to [finishReason]. *)
Lemma stopped_not_reached_without_parts :
  ~ (forall j,
       at_path (first_candidate ++ [Key "finishReason"]) j
       = Some (PStr "SAFETY") ->
       at_path first_part j = None ->
       normalize_text j = Return (Stopped (PStr "SAFETY"))).
Proof.
  intros claim.
  specialize (claim null_content_response eq_refl eq_refl).
  vm_compute in claim. discriminate claim.
Qed.

(** C8, amended. A response with [candidates[0].finishReason = "SAFETY"]
    whose first candidate has no [content] key, or a [content] object
    with no [parts] key or with an empty [parts] array, is normalized to
    [Stopped "SAFETY"], rendered as the message that generation stopped and
    that a different question may be tried. *)
Theorem text_flow_safety (j : pyval) :
  at_path (first_candidate ++ [Key "finishReason"]) j = Some (PStr "SAFETY") ->
  no_parts j ->
  normalize_text j = Return (Stopped (PStr "SAFETY"))
  /\ (forall prompt t,
        fst (call_gemini_api prompt (world_serving (Return (ok_response j)) t))
        = Return (Stopped (PStr "SAFETY")))
  /\ (forall describe py_repr,
        render describe py_repr (Stopped (PStr "SAFETY"))
        = PStr "Generation stopped: SAFETY. Try a different question.").
Proof.
  intros H Hno. pose proof (normalize_text_stopped j _ H Hno) as Hn.
  split; [exact Hn|]. split; [|reflexivity].
  intros prompt t. rewrite call_gemini_api_eq. cbn. rewrite Hn. reflexivity.
Qed.

Lemma text_flow_safety_witness :
  at_path (first_candidate ++ [Key "finishReason"]) safety_response
  = Some (PStr "SAFETY")
  /\ normalize_text safety_response = Return (Stopped (PStr "SAFETY")).
Proof.
  split; [reflexivity|].
  apply (text_flow_safety safety_response).
  - reflexivity.
  - left. exists {[ "finishReason" := PStr "SAFETY" ]}. split; reflexivity.
Defined.

(** C9. A response with [promptFeedback.blockReason = "OTHER"] and no
    [candidates] key is normalized to [Blocked "OTHER"]. *)
Theorem text_flow_blocked (j : pyval) :
  at_path [Key "promptFeedback"; Key "blockReason"] j = Some (PStr "OTHER") ->
  at_path [Key "candidates"] j = None ->
  normalize_text j = Return (Blocked (PStr "OTHER"))
  /\ (forall prompt t,
        fst (call_gemini_api prompt (world_serving (Return (ok_response j)) t))
        = Return (Blocked (PStr "OTHER")))
  /\ (forall describe py_repr,
        render describe py_repr (Blocked (PStr "OTHER"))
        = PStr "Request blocked: OTHER.").
Proof.
  intros H Hc. pose proof (normalize_text_blocked j _ H Hc) as Hn.
  split; [exact Hn|]. split; [|reflexivity].
  intros prompt t. rewrite call_gemini_api_eq. cbn. rewrite Hn. reflexivity.
Qed.

Lemma text_flow_blocked_witness :
  at_path [Key "promptFeedback"; Key "blockReason"] blocked_response
  = Some (PStr "OTHER")
  /\ at_path [Key "candidates"] blocked_response = None
  /\ normalize_text blocked_response = Return (Blocked (PStr "OTHER")).
Proof.
  split; [reflexivity|]. split; [reflexivity|].
  apply (text_flow_blocked blocked_response); reflexivity.
Defined.

(** C1, as the specification states it, fails: with a first part that has
    no [text] key the text flow does not reach the [finishReason] branch. *)
Lemma finish_reason_not_reached :
  ~ (forall j part reason,
       at_path first_part j = Some part ->
       at_path (first_part ++ [Key "text"]) j = None ->
       at_path (first_candidate ++ [Key "finishReason"]) j = Some reason ->
       normalize_text j = Return (Stopped reason)).
Proof.
  intros claim.
  specialize (claim textless_response (obj []) (PStr "STOP")
                eq_refl eq_refl eq_refl).
  vm_compute in claim. discriminate claim.
Qed.

(** C1, amended. When the first part is an object without a [text] key the
    text flow returns the fixed text [No text found in the response.],
    whether or not the candidate carries a [finishReason]; it returns
    [Stopped finishReason] when the candidate carries a [finishReason] and
    no parts. *)
Theorem text_flow_textless_part (j : pyval) (part : gmap string pyval) :
  at_path first_part j = Some (PDict part) ->
  part !! "text" = None ->
  normalize_text j = Return (Text (PStr "No text found in the response."))
  /\ (forall reason, normalize_text j <> Return (Stopped reason))
  /\ (forall describe py_repr,
        render describe py_repr (Text (PStr "No text found in the response."))
        = PStr "No text found in the response.")
  /\ (forall j' reason,
        at_path (first_candidate ++ [Key "finishReason"]) j' = Some reason ->
        no_parts j' ->
        normalize_text j' = Return (Stopped reason)).
Proof.
  intros H Hp. pose proof (normalize_text_default j part H Hp) as Hn.
  split; [exact Hn|]. split; [|split; [reflexivity|]].
  - intros reason. rewrite Hn. discriminate.
  - intros j' reason. apply normalize_text_stopped.
Qed.

Lemma text_flow_textless_part_witness :
  at_path first_part textless_response = Some (PDict ∅)
  /\ normalize_text textless_response
     = Return (Text (PStr "No text found in the response.")).
Proof.
  split; [reflexivity|].
  apply (text_flow_textless_part textless_response ∅); reflexivity.
Defined.

(** C10. An exception raised while decoding or normalizing a successful
    response is caught by the handler that catches transport failures: the
    text flow logs it and returns the transport-error result, rendered as
    [Sorry, an error occurred: ...], never a malformed-response diagnostic,
    and the same result as when the post itself raised that exception. *)
Theorem normalizing_errors_reported_as_transport
    (describe : pyexc -> string) (py_repr : pyval -> string)
    (prompt : string) (w : world) (r : response) (e : pyexc) :
  network w (length (posted w)) = Return r ->
  (200 <= status_code r < 300)%Z ->
  (json r = Raise e
   \/ exists j, json r = Return j /\ normalize_text j = Raise e) ->
  call_gemini_api prompt w
  = (Return (TransportError "Sorry, an error occurred: " e),
     record_log (LogError "Error during request to Gemini API: " e)
       (record_post (text_post prompt) w))
  /\ render describe py_repr (TransportError "Sorry, an error occurred: " e)
     = PStr ("Sorry, an error occurred: " ++ describe e)
  /\ (forall diagnostic,
        fst (call_gemini_api prompt w) <> Return (MalformedResponse diagnostic))
  /\ (forall w2,
        network w2 (length (posted w2)) = Raise e ->
        fst (call_gemini_api prompt w2) = fst (call_gemini_api prompt w)).
Proof.
  intros Hnet Hs Hraise.
  assert (call_gemini_api prompt w
          = (Return (TransportError "Sorry, an error occurred: " e),
             record_log (LogError "Error during request to Gemini API: " e)
               (record_post (text_post prompt) w))) as Hcall.
  { rewrite call_gemini_api_eq, Hnet. cbn.
    rewrite (success_passes r Hs). cbn.
    destruct Hraise as [-> | (j & -> & Hn)]; cbn; [reflexivity|].
    rewrite Hn. reflexivity. }
  split; [exact Hcall|]. split; [reflexivity|]. split.
  - intros diagnostic. rewrite Hcall. discriminate.
  - intros w2 Hnet2. rewrite Hcall, call_gemini_api_eq, Hnet2. reflexivity.
Qed.

Lemma normalizing_errors_reported_as_transport_witness :
  fst (call_gemini_api "hi" (world_serving (Return (ok_response (PInt 5)))
                               never_fails))
  = Return (TransportError "Sorry, an error occurred: "
              (TypeError "in" (PInt 5)))
  /\ render plain opaque_repr
       (TransportError "Sorry, an error occurred: " (TypeError "in" (PInt 5)))
     = PStr "Sorry, an error occurred: boom".
Proof.
  destruct (normalizing_errors_reported_as_transport plain opaque_repr "hi"
              (world_serving (Return (ok_response (PInt 5))) never_fails)
              (ok_response (PInt 5)) (TypeError "in" (PInt 5)))
    as (Hcall & Hrender & _).
  - reflexivity.
  - cbn. lia.
  - right. exists (PInt 5). split; reflexivity.
  - split; [rewrite Hcall; reflexivity | exact Hrender].
Defined.

(** ** Transport failures *)

(** C4, as the specification states it, fails: a response whose status is
    outside 2xx but is no error status (here 300) is not reported as a
    transport error; its body is normalized like a successful one. *)
Lemma redirect_status_not_reported :
  ~ (forall prompt w r,
       network w (length (posted w)) = Return r ->
       ~ (200 <= status_code r < 300)%Z ->
       exists apology e,
         fst (call_gemini_api prompt w) = Return (TransportError apology e)).
Proof.
  intros claim.
  destruct (claim "hi" (world_serving (Return multiple_choices) never_fails)
              multiple_choices eq_refl) as (apology & e & H).
  - cbn. lia.
  - vm_compute in H. discriminate H.
Qed.

(** C4, amended. When the post raises (timeout, connection error) or the
    response has a 4xx or 5xx status, each flow makes that one post, logs
    the failure and returns the transport-error result carrying the
    exception, rendered with its description; nothing is raised. *)
Theorem transport_failure_reported
    (describe : pyexc -> string) (py_repr : pyval -> string)
    (prompt : string) (image_bytes : list byte) (w : world) (e : pyexc) :
  transport_failure (network w (length (posted w))) e ->
  call_gemini_api prompt w
  = (Return (TransportError "Sorry, an error occurred: " e),
     record_log (LogError "Error during request to Gemini API: " e)
       (record_post (text_post prompt) w))
  /\ call_gemini_with_image prompt image_bytes w
     = (Return (TransportError "An error occurred: " e),
        record_log (LogError "Error processing image: " e)
          (record_post (image_post prompt image_bytes) w))
  /\ posted (snd (call_gemini_api prompt w))
     = (posted w ++ [text_post prompt])%list
  /\ posted (snd (call_gemini_with_image prompt image_bytes w))
     = (posted w ++ [image_post prompt image_bytes])%list
  /\ render describe py_repr (TransportError "Sorry, an error occurred: " e)
     = PStr ("Sorry, an error occurred: " ++ describe e)
  /\ render describe py_repr (TransportError "An error occurred: " e)
     = PStr ("An error occurred: " ++ describe e).
Proof.
  intros Hfail. apply failure_raises in Hfail as [Htext Himage].
  rewrite call_gemini_api_eq, call_gemini_with_image_eq, Htext, Himage.
  repeat split; reflexivity.
Qed.

Lemma transport_failure_reported_witness :
  transport_failure (Raise (Timeout "read timed out")) (Timeout "read timed out")
  /\ fst (call_gemini_api "hi"
            (world_serving (Raise (Timeout "read timed out")) never_fails))
     = Return (TransportError "Sorry, an error occurred: "
                 (Timeout "read timed out")).
Proof.
  split; [left; reflexivity|].
  destruct (transport_failure_reported plain opaque_repr "hi" []
              (world_serving (Raise (Timeout "read timed out")) never_fails)
              (Timeout "read timed out")) as (Hcall & _).
  - left. reflexivity.
  - rewrite Hcall. reflexivity.
Defined.

(** ** The image flow against the text flow *)

Lemma call_gemini_with_image_variants prompt image_bytes w res :
  fst (call_gemini_with_image prompt image_bytes w) = Return res ->
  (exists v, res = Text v)
  \/ res = MalformedResponse "Couldn't get a valid response from the AI."
  \/ exists e, res = TransportError "An error occurred: " e.
Proof.
  rewrite call_gemini_with_image_eq.
  destruct (network w (length (posted w)) ≫= _) as [res'|e] eqn:E; cbn.
  - intros [= <-].
    apply bind_Return in E as (r & _ & E).
    apply bind_Return in E as (_ & _ & E).
    apply bind_Return in E as (j & _ & E).
    apply normalize_image_variants in E as [E|E]; auto.
  - intros [= <-]. eauto.
Qed.

Lemma call_gemini_with_image_ok prompt image_bytes w j :
  network w (length (posted w)) = Return (ok_response j) ->
  fst (call_gemini_with_image prompt image_bytes w)
  = match normalize_image j with
    | Return res => Return res
    | Raise e => Return (TransportError "An error occurred: " e)
    end.
Proof.
  intros Hnet. rewrite call_gemini_with_image_eq, Hnet.
  change (Return (ok_response j) ≫= _) with (normalize_image j).
  destruct (normalize_image j); reflexivity.
Qed.

(** C3, as the specification states it, fails: a response without a
    non-empty [candidates] array (here the JSON value [null]) need not
    yield the generic failure message; the catch-all message is returned. *)
Lemma image_flow_failure_not_always_generic :
  ~ (forall prompt image_bytes w j,
       network w (length (posted w)) = Return (ok_response j) ->
       lacks_candidates j ->
       fst (call_gemini_with_image prompt image_bytes w)
       = Return (MalformedResponse "Couldn't get a valid response from the AI.")).
Proof.
  intros claim.
  specialize (claim "What is in this image?" []
                (world_serving (Return (ok_response PNone)) never_fails)
                PNone eq_refl).
  assert (lacks_candidates PNone) as Hl by (intros c cs; discriminate).
  specialize (claim Hl). vm_compute in claim. discriminate claim.
Qed.

(** C3, amended. The image flow never returns a [Stopped] or [Blocked]
    result; on an object whose [candidates] key is absent or holds an empty
    array it returns the generic failure message, and on every response
    without a non-empty [candidates] array either that message or the
    catch-all error; on a response with [promptFeedback.blockReason] and no
    [candidates] the two flows differ. *)
Theorem image_flow_branches :
  (forall prompt image_bytes w reason,
     fst (call_gemini_with_image prompt image_bytes w) <> Return (Stopped reason)
     /\ fst (call_gemini_with_image prompt image_bytes w)
        <> Return (Blocked reason))
  /\ (forall d : gmap string pyval,
        d !! "candidates" = None \/ d !! "candidates" = Some (PList []) ->
        forall prompt image_bytes t,
          fst (call_gemini_with_image prompt image_bytes
                 (world_serving (Return (ok_response (PDict d))) t))
          = Return (MalformedResponse
                      "Couldn't get a valid response from the AI."))
  /\ (forall j,
        lacks_candidates j ->
        forall prompt image_bytes t,
          fst (call_gemini_with_image prompt image_bytes
                 (world_serving (Return (ok_response j)) t))
          = Return (MalformedResponse
                      "Couldn't get a valid response from the AI.")
          \/ exists e,
               fst (call_gemini_with_image prompt image_bytes
                      (world_serving (Return (ok_response j)) t))
               = Return (TransportError "An error occurred: " e))
  /\ (forall j reason,
        at_path [Key "promptFeedback"; Key "blockReason"] j = Some reason ->
        at_path [Key "candidates"] j = None ->
        normalize_text j = Return (Blocked reason)
        /\ normalize_image j
           = Return (MalformedResponse
                       "Couldn't get a valid response from the AI.")
        /\ forall describe py_repr,
             render describe py_repr (Blocked reason)
             <> render describe py_repr
                  (MalformedResponse
                     "Couldn't get a valid response from the AI.")).
Proof.
  repeat apply conj.
  - intros prompt image_bytes w reason.
    split; intros H;
      apply call_gemini_with_image_variants in H
        as [(v & H) | [H | (e & H)]]; discriminate H.
  - intros d Hd prompt image_bytes t.
    rewrite (call_gemini_with_image_ok _ _ _ (PDict d)) by reflexivity.
    rewrite (normalize_image_absent d Hd). reflexivity.
  - intros j Hl prompt image_bytes t.
    rewrite (call_gemini_with_image_ok _ _ _ j) by reflexivity.
    destruct (normalize_image_lacking j Hl) as [-> | (e & ->)]; eauto.
  - intros j reason Hblock Hnone.
    split; [apply normalize_text_blocked; assumption|]. split.
    + walk Hblock. cbn in Hnone.
      destruct (d !! "candidates") as [c|] eqn:Ec; [discriminate|].
      apply normalize_image_absent. auto.
    + intros describe py_repr. cbn. discriminate.
Qed.

Lemma image_flow_branches_witness :
  normalize_text blocked_response = Return (Blocked (PStr "OTHER"))
  /\ normalize_image blocked_response
     = Return (MalformedResponse "Couldn't get a valid response from the AI.")
  /\ fst (call_gemini_with_image "What is in this image?" []
            (world_serving (Return (ok_response (obj []))) never_fails))
     = Return (MalformedResponse "Couldn't get a valid response from the AI.").
Proof.
  destruct image_flow_branches as (_ & Habsent & _ & Hdiffer).
  destruct (Hdiffer blocked_response (PStr "OTHER") eq_refl eq_refl)
    as (Htext & Himage & _).
  split; [exact Htext|]. split; [exact Himage|].
  apply (Habsent ∅). left. reflexivity.
Defined.


(** ** The request payload of the image flow *)

(** C6. The payload of the image flow has exactly two parts, the prompt
    as a text part and then an inline-data part, and decoding the base64
    payload of the latter gives back the image bytes. *)
Theorem image_request_round_trip (prompt : string) (image_bytes : list byte) :
  exists data : string,
    at_path [Key "contents"; Index 0; Key "parts"]
      (image_request prompt image_bytes)
    = Some (PList [text_part prompt; inline_data_part "image/jpeg" data])
    /\ at_path [Key "text"] (text_part prompt) = Some (PStr prompt)
    /\ at_path [Key "inlineData"; Key "data"]
         (inline_data_part "image/jpeg" data)
       = Some (PStr data)
    /\ b64decode data = Some image_bytes
    /\ forall w,
         posted (snd (call_gemini_with_image prompt image_bytes w))
         = (posted w ++ [image_post prompt image_bytes])%list
         /\ req_json (image_post prompt image_bytes)
            = image_request prompt image_bytes.
Proof.
  exists (decode_ascii (b64encode image_bytes)).
  split; [reflexivity|]. split; [reflexivity|]. split; [reflexivity|]. split.
  - unfold b64decode, decode_ascii.
    rewrite list_byte_of_string_of_list_byte.
    apply Base64.b64decode_bytes_encode.
  - intros w.
    destruct (call_gemini_with_image_returns prompt image_bytes w)
      as (res & w' & -> & Hposted & _).
    split; [exact Hposted | reflexivity].
Qed.

(** ** The dispatcher *)

Lemma next_call (w : world) (c : bot_call) :
  length (called (record_call c w)) = S (length (called w)).
Proof. cbn. rewrite length_app. cbn. lia. Qed.

Lemma handle_message_inbound describe py_repr m c who w :
  handle_message describe py_repr (inbound m c who) w
  = answer_text describe py_repr m c who w.
Proof. reflexivity. Qed.

Lemma handle_image_inbound describe py_repr m c who w :
  handle_image describe py_repr (inbound m c who) w
  = answer_photo describe py_repr m c w.
Proof. reflexivity. Qed.

(** When the reply to a photo cannot be sent, [handle_image] lets the
    exception out: nothing catches it, no failure is logged and no
    fallback reply is attempted. *)
Lemma handle_image_reply_failure_propagates
    (describe : pyexc -> string) (py_repr : pyval -> string)
    (m : message) (c : chat) (who : user) (w : world) (largest : photo_size) (e : pyexc) :
  last (message_photo m) = Some largest ->
  telegram w (length (called w)) = None ->
  telegram w (S (length (called w))) = None ->
  telegram w (S (S (length (called w)))) = None ->
  telegram w (S (S (S (length (called w))))) = Some e ->
  exists ai_response w',
    handle_image describe py_repr (inbound m c who) w = (Raise e, w')
    /\ called w'
       = (called w ++ [GetFile (file_id largest); Download (file_id largest);
                       SendChatAction (chat_id c) "typing";
                       ReplyText (render describe py_repr ai_response)])%list
    /\ forall cause,
         In (LogError "Failed to send reply message: " cause) (log w') ->
         In (LogError "Failed to send reply message: " cause) (log w).
Proof.
  intros Hlast H0 H1 H2 H3.
  rewrite handle_image_inbound. unfold answer_photo. rewrite Hlast.
  unfold mbind, M_bind.
  unfold bot_api at 1. rewrite H0.
  unfold bot_api at 1. rewrite next_call. cbn [telegram record_call]. rewrite H1.
  unfold bot_api at 1. rewrite !next_call. cbn [telegram record_call]. rewrite H2.
  match goal with
  | |- context [call_gemini_with_image ?p ?b ?w1] =>
      destruct (call_gemini_with_image_returns p b w1)
        as (res & w2 & -> & _ & Hcalled & Htg & Hlog)
  end.
  unfold reply_text, bot_api. rewrite Hcalled, Htg, !next_call.
  cbn [telegram record_call]. rewrite H3.
  exists res. eexists. split; [reflexivity|]. split.
  - cbn. rewrite Hcalled. cbn. rewrite <- !app_assoc. reflexivity.
  - intros cause Hin. cbn in Hin.
    apply Hlog in Hin as [Hin | Hin]; [exact Hin | discriminate Hin].
Qed.


(** X17. The sibling handler for text does catch the failure of its
    reply: it logs it and sends the fallback reply. *)
Lemma handle_message_reply_failure_masked
    (describe : pyexc -> string) (py_repr : pyval -> string)
    (m : message) (c : chat) (who : user) (w : world) (e : pyexc) :
  telegram w (length (called w)) = None ->
  telegram w (S (length (called w))) = Some e ->
  telegram w (S (S (length (called w)))) = None ->
  exists ai_response w',
    handle_message describe py_repr (inbound m c who) w = (Return tt, w')
    /\ called w'
       = (called w ++ [SendChatAction (chat_id c) "typing";
                       ReplyText (render describe py_repr ai_response);
                       ReplyText
                         (PStr "An error occurred while sending the reply.")])%list
    /\ In (LogError "Failed to send reply message: " e) (log w').
Proof.
  intros H0 H1 H2.
  rewrite handle_message_inbound. unfold answer_text, try_except, write_log. unfold mbind, M_bind.
  unfold bot_api at 1. cbn [telegram called record_log]. rewrite H0.
  match goal with
  | |- context [call_gemini_api ?p ?w1] =>
      destruct (call_gemini_api_returns p w1)
        as (res & w2 & -> & _ & Hcalled & Htg)
  end.
  unfold reply_text, bot_api. rewrite Hcalled, Htg, !next_call.
  cbn [telegram called record_call record_log]. rewrite H1.
  cbn [telegram called record_call record_log].
  rewrite Htg, length_app, Hcalled. cbn [length telegram called record_call record_log].
  rewrite length_app. cbn [length].
  replace (length (called w) + 1 + 1) with (S (S (length (called w)))) by lia.
  rewrite H2.
  exists res. eexists. split; [reflexivity|]. split.
  - cbn. rewrite Hcalled. cbn. rewrite <- !app_assoc. reflexivity.
  - cbn. apply in_or_app. right. left. reflexivity.
Qed.

(** C5 at a photo whose reply the chat platform refuses: the exception
    leaves [handle_image], with the refused reply as the last call and an
    empty log, while [handle_message] in the same situation returns after
    logging the failure and sending the fallback reply. *)
Theorem photo_reply_failure_escapes :
  let refusal := TelegramError "Forbidden: bot was blocked by the user" in
  let serving := Return (ok_response hello_response) in
  (exists w',
     handle_image plain opaque_repr sample_update
       (world_serving serving (fails_at 3 refusal))
     = (Raise refusal, w')
     /\ called w' = [GetFile "AgAD"; Download "AgAD";
                     SendChatAction 42 "typing"; ReplyText (PStr "hello")]
     /\ log w' = [])
  /\ (exists w',
        handle_message plain opaque_repr sample_update
          (world_serving serving (fails_at 1 refusal))
        = (Return tt, w')
        /\ called w' = [SendChatAction 42 "typing"; ReplyText (PStr "hello");
                        ReplyText
                          (PStr "An error occurred while sending the reply.")]
        /\ In (LogError "Failed to send reply message: " refusal) (log w')).
Proof.
  cbv zeta. split.
  - eexists. split; [vm_compute; reflexivity|]. split; reflexivity.
  - eexists. split; [vm_compute; reflexivity|]. split; [reflexivity|].
    cbn. auto.
Qed.

(** X18. The catch of the text handler covers the first reply only: when
    the fallback reply is refused as well, that second failure leaves the
    handler. *)
Lemma handle_message_fallback_failure_propagates
    (describe : pyexc -> string) (py_repr : pyval -> string)
    (m : message) (c : chat) (who : user) (w : world) (e e2 : pyexc) :
  telegram w (length (called w)) = None ->
  telegram w (S (length (called w))) = Some e ->
  telegram w (S (S (length (called w)))) = Some e2 ->
  exists w', handle_message describe py_repr (inbound m c who) w = (Raise e2, w').
Proof.
  intros H0 H1 H2.
  rewrite handle_message_inbound. unfold answer_text, try_except, write_log. unfold mbind, M_bind.
  unfold bot_api at 1. cbn [telegram called record_log]. rewrite H0.
  match goal with
  | |- context [call_gemini_api ?p ?w1] =>
      destruct (call_gemini_api_returns p w1)
        as (res & w2 & -> & _ & Hcalled & Htg)
  end.
  unfold reply_text, bot_api. rewrite Hcalled, Htg, !next_call.
  cbn [telegram called record_call record_log]. rewrite H1.
  cbn [telegram called record_call record_log].
  rewrite Htg, length_app, Hcalled.
  cbn [length telegram called record_call record_log].
  rewrite length_app. cbn [length].
  replace (length (called w) + 1 + 1) with (S (S (length (called w)))) by lia.
  rewrite H2. eexists. reflexivity.
Qed.

(** * Further properties of the code *)

(** ** Base64 encoding of the image *)

(** X1. The encoded image has four characters for every started group of
    three bytes. *)
Theorem b64encode_length (bs : list byte) :
  length (b64encode bs) = 4 * ((length bs + 2) / 3).
Proof.
  induction bs as [|a|a b|a b c rest IH] using Base64.list_ind3;
    [reflexivity | reflexivity | reflexivity |].
  cbn [b64encode length]. rewrite IH.
  replace (S (S (S (length rest))) + 2) with (length rest + 2 + 1 * 3) by lia.
  rewrite Nat.div_add by lia. lia.
Qed.

(** X2. Every character of the encoded image is one of the 64 letters of
    the alphabet or the padding sign, and all of them are ASCII, so the
    [decode('utf-8')] of line 60 cannot fail. *)
Theorem b64encode_alphabet (bs : list byte) :
  Forall (fun c => (In c b64_alphabet \/ c = b64_pad)
                   /\ (Byte.to_N c < 128)%N)
         (b64encode bs).
Proof.
  assert (forall i, (In (b64_char i) b64_alphabet \/ b64_char i = b64_pad)
                    /\ (Byte.to_N (b64_char i) < 128)%N) as Hchar.
  { intros i. split; [|apply Base64.b64_char_ascii].
    unfold b64_char.
    destruct (nth_in_or_default (N.to_nat i) b64_alphabet b64_pad); auto. }
  assert ((In b64_pad b64_alphabet \/ b64_pad = b64_pad)
          /\ (Byte.to_N b64_pad < 128)%N) as Hpad
    by (split; [right|]; reflexivity).
  induction bs as [|a|a b|a b c rest IH] using Base64.list_ind3;
    cbn [b64encode];
    repeat (constructor; [first [apply Hchar | exact Hpad]|]);
    first [exact IH | constructor].
Qed.

(** X3. Encoding works group by group: after a prefix whose length is a
    multiple of three, the encoding of the rest is simply appended. *)
Theorem b64encode_app (front back : list byte) :
  length front mod 3 = 0 ->
  b64encode (front ++ back) = (b64encode front ++ b64encode back)%list.
Proof.
  induction front as [|a|a b|a b c rest IH] using Base64.list_ind3;
    cbn [length]; intros Hlen.
  - reflexivity.
  - discriminate Hlen.
  - discriminate Hlen.
  - cbn [app b64encode]. rewrite IH; [reflexivity|].
    replace (S (S (S (length rest)))) with (length rest + 1 * 3) in Hlen by lia.
    rewrite Nat.Div0.mod_add in Hlen. exact Hlen.
Qed.

Lemma b64encode_app_witness :
  length [x4a; x46; x49] mod 3 = 0
  /\ b64encode ([x4a; x46; x49] ++ [x46])
     = (b64encode [x4a; x46; x49] ++ b64encode [x46])%list.
Proof.
  split; [reflexivity|].
  apply (b64encode_app [x4a; x46; x49] [x46]). reflexivity.
Defined.

(** X4. The request payload of the image flow determines the prompt and
    the image: two calls post the same payload only for the same prompt and
    the same bytes. *)
Theorem image_request_injective (prompt1 prompt2 : string)
    (image1 image2 : list byte) :
  image_request prompt1 image1 = image_request prompt2 image2 ->
  prompt1 = prompt2 /\ image1 = image2.
Proof.
  intros Heq. split.
  - assert (at_path [Key "contents"; Index 0; Key "parts"; Index 0; Key "text"]
              (image_request prompt1 image1) = Some (PStr prompt1)) as H1
      by reflexivity.
    assert (at_path [Key "contents"; Index 0; Key "parts"; Index 0; Key "text"]
              (image_request prompt2 image2) = Some (PStr prompt2)) as H2
      by reflexivity.
    rewrite Heq in H1. congruence.
  - assert (at_path [Key "contents"; Index 0; Key "parts"; Index 1;
                     Key "inlineData"; Key "data"]
              (image_request prompt1 image1)
            = Some (PStr (decode_ascii (b64encode image1)))) as H1
      by reflexivity.
    assert (at_path [Key "contents"; Index 0; Key "parts"; Index 1;
                     Key "inlineData"; Key "data"]
              (image_request prompt2 image2)
            = Some (PStr (decode_ascii (b64encode image2)))) as H2
      by reflexivity.
    rewrite Heq in H1.
    assert (decode_ascii (b64encode image2) = decode_ascii (b64encode image1))
      as Hdata by congruence.
    unfold decode_ascii in Hdata.
    apply (f_equal list_byte_of_string) in Hdata.
    rewrite !list_byte_of_string_of_list_byte in Hdata.
    apply (f_equal b64decode_bytes) in Hdata.
    rewrite !Base64.b64decode_bytes_encode in Hdata. congruence.
Qed.

Lemma image_request_injective_witness :
  image_request "Hi" [x4a; x46] = image_request "Hi" [x4a; x46]
  /\ "Hi" = "Hi" /\ [x4a; x46] = [x4a; x46].
Proof.
  split; [reflexivity|].
  apply (image_request_injective "Hi" "Hi" [x4a; x46] [x4a; x46]).
  reflexivity.
Defined.

(** ** What a result of the normalizers says about the response *)

Lemma and_then_true a b :
  a andalso b = Return true -> a = Return true /\ b = Return true.
Proof. destruct a as [[]|]; cbn; intros H; try discriminate; auto. Qed.

Lemma py_item_Return v k x :
  py_item v k = Return x -> exists d, v = PDict d /\ d !! k = Some x.
Proof.
  destruct v; cbn; try discriminate.
  destruct (d !! k) as [y|] eqn:E; [|discriminate].
  intros [= <-]. eauto.
Qed.

Lemma py_get_Return v k dflt x :
  py_get v k dflt = Return x ->
  exists d, v = PDict d
            /\ (d !! k = Some x \/ (d !! k = None /\ x = dflt)).
Proof.
  destruct v; cbn; try discriminate.
  destruct (d !! k) as [y|] eqn:E; intros [= <-]; eauto.
Qed.

Lemma py_item0_dict v d :
  py_item0 v = Return (PDict d) -> exists l, v = PList (PDict d :: l).
Proof.
  destruct v as [| | | | s | l | ]; cbn; try discriminate.
  - destruct s; discriminate.
  - destruct l as [|x l]; [discriminate|]. intros [= ->]. eauto.
Qed.

Lemma py_in_dict_false (d : gmap string pyval) k :
  py_in k (PDict d) = Return false -> d !! k = None.
Proof.
  cbn. destruct (d !! k) eqn:E; [|reflexivity].
  rewrite bool_decide_eq_true_2 by eauto. discriminate.
Qed.

(** Where [select] finds nothing the whole path finds nothing. *)
Lemma at_path_cut s rest v :
  select s v = None -> at_path (s :: rest) v = None.
Proof. intros H. cbn. rewrite H. reflexivity. Qed.

Lemma py_len_zero_no_first v :
  py_len v = Return 0%Z -> select (Index 0) v = None.
Proof.
  destruct v as [| | | | s | l | d]; cbn; try reflexivity.
  destruct l; [reflexivity|]. cbn. discriminate.
Qed.

Lemma py_in_false_no_key k v :
  py_in k v = Return false -> select (Key k) v = None.
Proof.
  destruct v; try reflexivity. apply py_in_dict_false.
Qed.

Lemma not_positive n : (0 <? n)%Z = false -> (0 <= n)%Z -> n = 0%Z.
Proof. intros H Hn. apply Z.ltb_ge in H. lia. Qed.

Lemma py_len_nonneg v n : py_len v = Return n -> (0 <= n)%Z.
Proof. destruct v; cbn; intros [= <-]; lia. Qed.

(** The first candidate has no first part when the test of line 43 is
    false. *)
Lemma no_first_part (c : gmap string pyval) :
  py_in "content" (PDict c)
  andalso (content ← py_item (PDict c) "content"; py_in "parts" content)
  andalso (content ← py_item (PDict c) "content";
           parts ← py_item content "parts";
           n ← py_len parts;
           Return (0 <? n)%Z)
  = Return false ->
  at_path [Key "content"; Key "parts"; Index 0] (PDict c) = None.
Proof.
  cbn [at_path select]. cbn [py_in py_item].
  destruct (c !! "content") as [content|] eqn:Ec; [|reflexivity].
  cbn [mbind option_bind outcome_bind and_then bool_decide].
  rewrite bool_decide_eq_true_2 by eauto. cbn [and_then mbind outcome_bind].
  destruct (py_in "parts" content) as [[]|e] eqn:Ep; cbn [and_then];
    try discriminate.
  - destruct (py_item content "parts") as [parts|e] eqn:Ei; [|discriminate].
    apply py_item_Return in Ei as (d & -> & Ed).
    cbn [mbind outcome_bind select option_bind at_path]. rewrite Ed.
    cbn [mbind option_bind].
    destruct (py_len parts) as [n|e] eqn:El; [|discriminate].
    intros [= H]. apply not_positive in H; [|eapply py_len_nonneg; eauto].
    subst n. change (select (Index 0) parts ≫= at_path [] = None).
    rewrite (py_len_zero_no_first parts El). reflexivity.
  - intros _. apply py_in_false_no_key in Ep.
    change (select (Key "parts") content ≫= at_path [Index 0] = None).
    rewrite Ep. reflexivity.
Qed.

Lemma no_first_part_any (candidate : pyval) :
  py_in "content" candidate
  andalso (content ← py_item candidate "content"; py_in "parts" content)
  andalso (content ← py_item candidate "content";
           parts ← py_item content "parts";
           n ← py_len parts;
           Return (0 <? n)%Z)
  = Return false ->
  at_path [Key "content"; Key "parts"; Index 0] candidate = None.
Proof.
  destruct candidate; try reflexivity. apply no_first_part.
Qed.

Lemma at_path_first_none candidates candidate rest :
  py_item0 candidates = Return candidate ->
  at_path rest candidate = None ->
  at_path (Index 0 :: rest) candidates = None.
Proof.
  destruct candidates as [| | | | s | l | d]; try reflexivity.
  destruct l as [|x l]; [reflexivity|]. cbn. intros [= ->]. auto.
Qed.

Lemma no_first_candidate_text (j : pyval) :
  py_in "candidates" j
  andalso (candidates ← py_item j "candidates";
           n ← py_len candidates;
           Return (0 <? n)%Z)
  = Return false ->
  at_path first_candidate j = None.
Proof.
  destruct j; try reflexivity.
  cbn [first_candidate at_path select py_in py_item].
  destruct (d !! "candidates") as [candidates|] eqn:Ec; [|reflexivity].
  rewrite bool_decide_eq_true_2 by eauto.
  cbn [and_then mbind outcome_bind option_bind].
  destruct (py_len candidates) as [n|e] eqn:El; [|discriminate].
  intros [= H]. apply not_positive in H; [|eapply py_len_nonneg; eauto].
  subst n. change (select (Index 0) candidates ≫= at_path [] = None).
  rewrite (py_len_zero_no_first candidates El). reflexivity.
Qed.

Lemma falsy_no_first v : py_truthy v = false -> select (Index 0) v = None.
Proof.
  destruct v as [| | | | s | l | d]; try reflexivity.
  destruct l; [reflexivity|discriminate].
Qed.

Lemma no_first_candidate_image (j : pyval) :
  py_in "candidates" j
  andalso (candidates ← py_item j "candidates";
           Return (py_truthy candidates))
  = Return false ->
  at_path first_candidate j = None.
Proof.
  destruct j; try reflexivity.
  cbn [first_candidate at_path select py_in py_item].
  destruct (d !! "candidates") as [candidates|] eqn:Ec; [|reflexivity].
  rewrite bool_decide_eq_true_2 by eauto.
  cbn [and_then mbind outcome_bind option_bind].
  intros [= H]. change (select (Index 0) candidates ≫= at_path [] = None).
  rewrite (falsy_no_first candidates H). reflexivity.
Qed.

Lemma no_block_reason (j : pyval) :
  py_in "promptFeedback" j
  andalso (feedback ← py_item j "promptFeedback";
           py_in "blockReason" feedback)
  = Return false ->
  at_path [Key "promptFeedback"; Key "blockReason"] j = None.
Proof.
  destruct j; try reflexivity.
  cbn [at_path select py_in py_item].
  destruct (d !! "promptFeedback") as [feedback|] eqn:Ef; [|reflexivity].
  rewrite bool_decide_eq_true_2 by eauto.
  cbn [and_then mbind outcome_bind option_bind].
  intros H. apply py_in_false_no_key in H.
  change (select (Key "blockReason") feedback ≫= at_path [] = None).
  rewrite H. reflexivity.
Qed.

(** X5. Whatever the text flow's branches return is read off the
    response: a [Text] is the value at [candidates[0].content.parts[0].text]
    or the fixed default when that part is an object without [text]; a
    [Stopped] carries [candidates[0].finishReason] and there is no first
    part; a [Blocked] carries [promptFeedback.blockReason] and there is no
    first candidate; the two diagnostics appear only when those paths are
    empty; the branches never produce a transport error. *)
Theorem normalize_text_sound (j : pyval) (res : InferenceResult) :
  normalize_text j = Return res ->
  match res with
  | Text v =>
      at_path (first_part ++ [Key "text"]) j = Some v
      \/ (v = PStr "No text found in the response."
          /\ exists part, at_path first_part j = Some (PDict part)
                          /\ part !! "text" = None)
  | Stopped reason =>
      at_path (first_candidate ++ [Key "finishReason"]) j = Some reason
      /\ at_path first_part j = None
  | Blocked reason =>
      at_path [Key "promptFeedback"; Key "blockReason"] j = Some reason
      /\ at_path first_candidate j = None
  | MalformedResponse diagnostic =>
      (diagnostic
       = "Failed to process the response from the AI (unexpected structure)."
       /\ at_path first_part j = None
       /\ at_path (first_candidate ++ [Key "finishReason"]) j = None)
      \/ (diagnostic = "Failed to get a valid response from the AI."
          /\ at_path first_candidate j = None
          /\ at_path [Key "promptFeedback"; Key "blockReason"] j = None)
  | TransportError _ _ => False
  end.
Proof.
  unfold normalize_text. intros H.
  apply bind_Return in H as (has_candidates & Hc & H).
  destruct has_candidates.
  - apply and_then_true in Hc as [_ _].
    apply bind_Return in H as (candidates & Hcs & H).
    apply py_item_Return in Hcs as (d & -> & Hd).
    apply bind_Return in H as (candidate & Hcand & H).
    apply bind_Return in H as (has_parts & Hp & H).
    assert (forall rest, at_path rest candidate = None ->
              at_path (first_candidate ++ rest) (PDict d) = None) as Hnone.
    { intros rest Hrest. cbn [first_candidate app at_path select].
      rewrite Hd. cbn [mbind option_bind].
      apply (at_path_first_none candidates candidate rest Hcand Hrest). }
    destruct has_parts.
    + apply bind_Return in H as (content & Hcontent & H).
      apply py_item_Return in Hcontent as (c & -> & Hcontent).
      apply bind_Return in H as (parts & Hparts & H).
      apply py_item_Return in Hparts as (ct & -> & Hparts).
      apply bind_Return in H as (part & Hpart & H).
      apply bind_Return in H as (text & Htext & H).
      apply py_get_Return in Htext as (p & -> & Htext).
      apply py_item0_dict in Hpart as (l & ->).
      apply py_item0_dict in Hcand as (l' & ->).
      injection H as <-.
      cbn [first_part first_candidate app at_path select].
      rewrite Hd. cbn. rewrite Hcontent. cbn. rewrite Hparts. cbn.
      destruct Htext as [Htext | [Htext ->]]; [left | right].
      * rewrite Htext. reflexivity.
      * split; [reflexivity|]. exists p. auto.
    + apply no_first_part_any in Hp.
      apply bind_Return in H as (has_reason & Hr & H).
      destruct has_reason.
      * apply bind_Return in H as (reason & Hreason & H).
        apply py_item_Return in Hreason as (c & -> & Hreason).
        apply py_item0_dict in Hcand as (l' & ->).
        injection H as <-. split.
        -- cbn [first_candidate app at_path select]. rewrite Hd. cbn.
           rewrite Hreason. reflexivity.
        -- apply (Hnone _ Hp).
      * injection H as <-. left. split; [reflexivity|]. split.
        -- apply (Hnone _ Hp).
        -- apply Hnone. apply at_path_cut, py_in_false_no_key, Hr.
  - apply no_first_candidate_text in Hc.
    apply bind_Return in H as (has_block & Hb & H).
    destruct has_block.
    + apply and_then_true in Hb as [_ _].
      apply bind_Return in H as (feedback & Hf & H).
      apply py_item_Return in Hf as (d & -> & Hf).
      apply bind_Return in H as (reason & Hreason & H).
      apply py_item_Return in Hreason as (f & -> & Hreason).
      injection H as <-. split; [|exact Hc].
      cbn. rewrite Hf. cbn. rewrite Hreason. reflexivity.
    + injection H as <-. right. split; [reflexivity|].
      split; [exact Hc | apply no_block_reason, Hb].
Qed.

Lemma normalize_text_sound_witness :
  at_path (first_candidate ++ [Key "finishReason"]) safety_response
  = Some (PStr "SAFETY")
  /\ at_path first_part safety_response = None.
Proof.
  exact (normalize_text_sound safety_response (Stopped (PStr "SAFETY")) eq_refl).
Defined.

(** X6. Whatever the image flow's branches return is read off the
    response too: a [Text] is the value at
    [candidates[0].content.parts[0].text] or the fixed default when that
    part is an object without [text]; the diagnostic appears only when
    there is no first candidate; nothing else is returned. *)
Theorem normalize_image_sound (j : pyval) (res : InferenceResult) :
  normalize_image j = Return res ->
  match res with
  | Text v =>
      at_path (first_part ++ [Key "text"]) j = Some v
      \/ (v = PStr "No response text found."
          /\ exists part, at_path first_part j = Some (PDict part)
                          /\ part !! "text" = None)
  | MalformedResponse diagnostic =>
      diagnostic = "Couldn't get a valid response from the AI."
      /\ at_path first_candidate j = None
  | _ => False
  end.
Proof.
  unfold normalize_image. intros H.
  apply bind_Return in H as (has_candidates & Hc & H).
  destruct has_candidates.
  - apply bind_Return in H as (candidates & Hcs & H).
    apply py_item_Return in Hcs as (d & -> & Hd).
    apply bind_Return in H as (candidate & Hcand & H).
    apply bind_Return in H as (content & Hcontent & H).
    apply py_item_Return in Hcontent as (c & -> & Hcontent).
    apply bind_Return in H as (parts & Hparts & H).
    apply py_item_Return in Hparts as (ct & -> & Hparts).
    apply bind_Return in H as (part & Hpart & H).
    apply bind_Return in H as (text & Htext & H).
    apply py_get_Return in Htext as (p & -> & Htext).
    apply py_item0_dict in Hpart as (l & ->).
    apply py_item0_dict in Hcand as (l' & ->).
    injection H as <-.
    cbn [first_part first_candidate app at_path select].
    rewrite Hd. cbn. rewrite Hcontent. cbn. rewrite Hparts. cbn.
    destruct Htext as [Htext | [Htext ->]]; [left | right].
    + rewrite Htext. reflexivity.
    + split; [reflexivity|]. exists p. auto.
  - injection H as <-. split; [reflexivity|].
    apply no_first_candidate_image, Hc.
Qed.

Lemma normalize_image_sound_witness :
  at_path (first_part ++ [Key "text"]) hello_response = Some (PStr "hello")
  \/ (PStr "hello" = PStr "No response text found."
      /\ exists part, at_path first_part hello_response = Some (PDict part)
                      /\ part !! "text" = None).
Proof.
  exact (normalize_image_sound hello_response (Text (PStr "hello")) eq_refl).
Defined.

(** ** Branches the two flows take *)

(** X7. A first candidate that carries neither parts nor a
    [finishReason] gets the diagnostic of line 48. *)
Theorem text_flow_unexpected_structure (j : pyval) :
  no_parts j ->
  at_path (first_candidate ++ [Key "finishReason"]) j = None ->
  normalize_text j
  = Return (MalformedResponse
              "Failed to process the response from the AI (unexpected structure).").
Proof.
  intros Hno Hnone.
  destruct Hno as [(c & Hc & Habsent) | [(content & Hc & Habsent) | Hc]];
    walk Hc; cbn in Hnone;
    repeat match goal with
    | E : ?d !! ?k = Some _, H : context [?d !! ?k] |- _ =>
        rewrite E in H; cbn in H
    end;
    match type of Hnone with
    | ?d !! "finishReason" ≫= _ = None =>
        destruct (d !! "finishReason") eqn:Er; [discriminate Hnone|]
    end;
    unfold normalize_text; run; reflexivity.
Qed.

Lemma text_flow_unexpected_structure_witness :
  normalize_text (obj [("candidates", PList [obj []])])
  = Return (MalformedResponse
              "Failed to process the response from the AI (unexpected structure).").
Proof.
  apply (text_flow_unexpected_structure (obj [("candidates", PList [obj []])])).
  - left. exists ∅. split; reflexivity.
  - reflexivity.
Defined.

(** X8. An empty [candidates] array counts as no [candidates] at all: both
    flows treat the response as if the key were deleted, so the text flow
    still reports a [blockReason] that comes with it. *)
Theorem empty_candidates_as_absent (d : gmap string pyval) :
  d !! "candidates" = Some (PList []) ->
  normalize_text (PDict d) = normalize_text (PDict (delete "candidates" d))
  /\ normalize_image (PDict d) = normalize_image (PDict (delete "candidates" d))
  /\ forall reason,
       at_path [Key "promptFeedback"; Key "blockReason"] (PDict d) = Some reason ->
       normalize_text (PDict d) = Return (Blocked reason).
Proof.
  intros Hd.
  assert (delete "candidates" d !! "candidates" = None) as Hdel
    by apply lookup_delete_eq.
  assert (delete "candidates" d !! "promptFeedback" = d !! "promptFeedback")
    as Hpf by (apply lookup_delete_ne; discriminate).
  assert (normalize_text (PDict d) = normalize_text (PDict (delete "candidates" d)))
    as Htext.
  { unfold normalize_text. run.
    cbn [py_in py_item]. rewrite Hpf. reflexivity. }
  split; [exact Htext|]. split.
  - unfold normalize_image. run. reflexivity.
  - intros reason Hr. rewrite Htext.
    apply normalize_text_blocked.
    + cbn [at_path select] in *. rewrite Hpf. exact Hr.
    + cbn. rewrite Hdel. reflexivity.
Qed.

Lemma empty_candidates_as_absent_witness :
  normalize_text
    (obj [("candidates", PList []);
          ("promptFeedback", obj [("blockReason", PStr "SAFETY")])])
  = Return (Blocked (PStr "SAFETY")).
Proof.
  destruct (empty_candidates_as_absent
              (list_to_map
                 [("candidates", PList []);
                  ("promptFeedback", obj [("blockReason", PStr "SAFETY")])]))
    as (_ & _ & H); [reflexivity|].
  apply (H (PStr "SAFETY")). reflexivity.
Defined.

(** X9. A first candidate without [content], which is what a stopped
    generation looks like, makes the image flow fail on the missing key:
    the lookup of line 85 raises [KeyError] and the catch-all reports it,
    where the text flow returns a result of its own branches. *)
Theorem image_flow_missing_content (j : pyval) (c : gmap string pyval)
    (prompt : string) (image_bytes : list byte) (t : nat -> option pyexc) :
  at_path first_candidate j = Some (PDict c) ->
  c !! "content" = None ->
  normalize_image j = Raise (KeyError (PStr "content"))
  /\ fst (call_gemini_with_image prompt image_bytes
            (world_serving (Return (ok_response j)) t))
     = Return (TransportError "An error occurred: " (KeyError (PStr "content")))
  /\ exists res, normalize_text j = Return res
                 /\ forall apology e, res <> TransportError apology e.
Proof.
  intros Hc Habsent. walk Hc.
  assert (normalize_image (PDict d) = Raise (KeyError (PStr "content")))
    as Himage.
  { unfold normalize_image. run. cbn [py_truthy length Nat.eqb negb].
    run. cbn [py_item]. rewrite Habsent. reflexivity. }
  split; [exact Himage|]. split.
  - rewrite (call_gemini_with_image_ok _ _ _ (PDict d)) by reflexivity.
    rewrite Himage. reflexivity.
  - destruct (c !! "finishReason") as [reason|] eqn:Er.
    + exists (Stopped reason). split; [|discriminate].
      unfold normalize_text. run. reflexivity.
    + eexists. split; [unfold normalize_text; run; reflexivity | discriminate].
Qed.

Lemma image_flow_missing_content_witness :
  normalize_image safety_response = Raise (KeyError (PStr "content")).
Proof.
  apply (image_flow_missing_content safety_response
           {[ "finishReason" := PStr "SAFETY" ]} "What is in this image?" []
           never_fails); reflexivity.
Defined.

(** ** What the inference calls do to the world *)

Lemma normalize_text_not_transport j res :
  normalize_text j = Return res ->
  forall apology e, res <> TransportError apology e.
Proof.
  unfold normalize_text. intros H.
  repeat match goal with
  | H : _ ≫= _ = Return _ |- _ => apply bind_Return in H as (? & _ & H)
  | H : (if ?b then _ else _) = Return _ |- _ => destruct b
  | H : Return _ = Return _ |- _ => injection H as <-
  end; discriminate.
Qed.

Lemma normalize_image_not_transport j res :
  normalize_image j = Return res ->
  forall apology e, res <> TransportError apology e.
Proof.
  intros H. apply normalize_image_variants in H as [(v & ->) | ->]; discriminate.
Qed.

Lemma attempt_not_transport (o : outcome response)
    (normalize : pyval -> outcome InferenceResult) res :
  (forall j r, normalize j = Return r ->
               forall apology e, r <> TransportError apology e) ->
  o ≫= (λ r, raise_for_status r ≫= λ _, json r ≫= normalize) = Return res ->
  forall apology e, res <> TransportError apology e.
Proof.
  intros Hn H.
  apply bind_Return in H as (r & _ & H).
  apply bind_Return in H as (_ & _ & H).
  apply bind_Return in H as (j & _ & H).
  exact (Hn j res H).
Qed.

(** X10. In every world [call_gemini_api] returns a result and raises
    nothing, makes exactly one POST (JSON content type, 60 second timeout,
    one content block with the prompt as its only part), leaves the chat
    platform alone, and writes an error record exactly when its result is
    the transport error, for the exception that result carries. *)
Theorem call_gemini_api_effects (prompt : string) (w : world) :
  exists res w',
    call_gemini_api prompt w = (Return res, w')
    /\ posted w' = (posted w ++ [text_post prompt])%list
    /\ at_path [Key "contents"] (req_json (text_post prompt))
       = Some (PList [PDict {[ "parts" :=
                                 PList [PDict {[ "text" := PStr prompt ]}] ]}])
    /\ req_timeout (text_post prompt) = 60%Z
    /\ req_headers (text_post prompt) !! "Content-Type"
       = Some "application/json"
    /\ called w' = called w
    /\ (((forall apology e, res <> TransportError apology e)
         /\ log w' = log w)
        \/ exists e,
             res = TransportError "Sorry, an error occurred: " e
             /\ log w'
                = (log w ++ [LogError "Error during request to Gemini API: " e])%list).
Proof.
  rewrite call_gemini_api_eq.
  destruct (network w (length (posted w)) ≫= _) as [res|e] eqn:E;
    eexists _, _; (split; [reflexivity|]);
    repeat (split; [reflexivity|]).
  - left. split; [|reflexivity].
    exact (attempt_not_transport _ _ _ normalize_text_not_transport E).
  - right. exists e. split; reflexivity.
Qed.

(** X11. In every world [call_gemini_with_image] returns a result and
    raises nothing, makes exactly one POST (JSON content type, 60 second
    timeout), leaves the chat platform alone, and writes an error record
    exactly when its result is the transport error. *)
Theorem call_gemini_with_image_effects (prompt : string)
    (image_bytes : list byte) (w : world) :
  exists res w',
    call_gemini_with_image prompt image_bytes w = (Return res, w')
    /\ posted w' = (posted w ++ [image_post prompt image_bytes])%list
    /\ req_timeout (image_post prompt image_bytes) = 60%Z
    /\ req_headers (image_post prompt image_bytes) !! "Content-Type"
       = Some "application/json"
    /\ called w' = called w
    /\ (((forall apology e, res <> TransportError apology e)
         /\ log w' = log w)
        \/ exists e,
             res = TransportError "An error occurred: " e
             /\ log w' = (log w ++ [LogError "Error processing image: " e])%list).
Proof.
  rewrite call_gemini_with_image_eq.
  destruct (network w (length (posted w)) ≫= _) as [res|e] eqn:E;
    eexists _, _; (split; [reflexivity|]);
    repeat (split; [reflexivity|]).
  - left. split; [|reflexivity].
    exact (attempt_not_transport _ _ _ normalize_image_not_transport E).
  - right. exists e. split; reflexivity.
Qed.

(** ** The two handlers, step by step *)

Lemma bot_api_accepted c w :
  telegram w (length (called w)) = None ->
  bot_api c w = (Return tt, record_call c w).
Proof. intros H. unfold bot_api. rewrite H. reflexivity. Qed.

Lemma bot_api_refused c w e :
  telegram w (length (called w)) = Some e ->
  bot_api c w = (Raise e, record_call c w).
Proof. intros H. unfold bot_api. rewrite H. reflexivity. Qed.

Lemma normalize_image_text j v :
  at_path (first_part ++ [Key "text"]) j = Some v ->
  normalize_image j = Return (Text v).
Proof.
  intros H. walk H. unfold normalize_image. run.
  cbn [py_truthy length Nat.eqb negb]. run. reflexivity.
Qed.

Lemma call_gemini_api_answer prompt w j v :
  network w (length (posted w)) = Return (ok_response j) ->
  at_path (first_part ++ [Key "text"]) j = Some v ->
  call_gemini_api prompt w = (Return (Text v), record_post (text_post prompt) w).
Proof.
  intros Hnet Hv. rewrite call_gemini_api_eq, Hnet.
  change (Return (ok_response j) ≫= _) with (normalize_text j).
  rewrite (normalize_text_text j v Hv). reflexivity.
Qed.

Lemma call_gemini_with_image_answer prompt image_bytes w j v :
  network w (length (posted w)) = Return (ok_response j) ->
  at_path (first_part ++ [Key "text"]) j = Some v ->
  call_gemini_with_image prompt image_bytes w
  = (Return (Text v), record_post (image_post prompt image_bytes) w).
Proof.
  intros Hnet Hv. rewrite call_gemini_with_image_eq, Hnet.
  change (Return (ok_response j) ≫= _) with (normalize_image j).
  rewrite (normalize_image_text j v Hv). reflexivity.
Qed.

(** X12. A photo event without any photo is answered with
    [No image found.]: that reply is the only call to the chat platform,
    nothing is posted to the inference API and nothing is logged. *)
Theorem handle_image_without_photo
    (describe : pyexc -> string) (py_repr : pyval -> string)
    (m : message) (c : chat) (who : user) (w : world) :
  message_photo m = [] ->
  exists o w',
    handle_image describe py_repr (inbound m c who) w = (o, w')
    /\ o = match telegram w (length (called w)) with
           | Some e => Raise e
           | None => Return tt
           end
    /\ called w' = (called w ++ [ReplyText (PStr "No image found.")])%list
    /\ posted w' = posted w
    /\ log w' = log w.
Proof.
  intros Hnone. rewrite handle_image_inbound. unfold answer_photo.
  rewrite Hnone. cbn [last].
  unfold reply_text, bot_api.
  destruct (telegram w (length (called w))) as [e|];
    eexists _, _; repeat split; reflexivity.
Qed.

Lemma handle_image_without_photo_witness :
  exists o w',
    handle_image plain opaque_repr
      (inbound {| message_text := ""; message_photo := [] |}
         sample_chat {| username := None |})
      (world_serving (Raise (Timeout "unused")) never_fails)
    = (o, w')
    /\ o = Return tt
    /\ called w' = [ReplyText (PStr "No image found.")]
    /\ posted w' = []
    /\ log w' = [].
Proof.
  apply (handle_image_without_photo plain opaque_repr
           {| message_text := ""; message_photo := [] |}
           sample_chat {| username := None |}
           (world_serving (Raise (Timeout "unused")) never_fails)).
  reflexivity.
Defined.

(** X13. A photo event whose calls all succeed: the last photo of the
    message is the one fetched and downloaded, its bytes are posted once
    with the fixed prompt, and the text the API answers with is the reply. *)
Theorem handle_image_relays_answer
    (describe : pyexc -> string) (py_repr : pyval -> string)
    (m : message) (c : chat) (who : user) (w : world) (smaller : list photo_size)
    (largest : photo_size) (j v : pyval) :
  message_photo m = (smaller ++ [largest])%list ->
  telegram w (length (called w)) = None ->
  telegram w (S (length (called w))) = None ->
  telegram w (S (S (length (called w)))) = None ->
  telegram w (S (S (S (length (called w))))) = None ->
  network w (length (posted w)) = Return (ok_response j) ->
  at_path (first_part ++ [Key "text"]) j = Some v ->
  exists w',
    handle_image describe py_repr (inbound m c who) w = (Return tt, w')
    /\ called w'
       = (called w ++ [GetFile (file_id largest); Download (file_id largest);
                       SendChatAction (chat_id c) "typing";
                       ReplyText v])%list
    /\ posted w'
       = (posted w ++ [image_post "What is in this image?"
                         (file_content largest)])%list
    /\ log w' = log w.
Proof.
  intros Hphotos H0 H1 H2 H3 Hnet Hv.
  rewrite handle_image_inbound. unfold answer_photo. rewrite Hphotos, last_snoc.
  unfold mbind, M_bind.
  rewrite bot_api_accepted by exact H0.
  rewrite bot_api_accepted by (rewrite next_call; exact H1).
  rewrite bot_api_accepted by (rewrite !next_call; exact H2).
  rewrite (call_gemini_with_image_answer _ _ _ j v) by assumption.
  unfold reply_text.
  rewrite bot_api_accepted
    by (cbn [called record_post telegram]; rewrite !next_call; exact H3).
  eexists. split; [reflexivity|]. cbn. rewrite <- !app_assoc. auto.
Qed.

Lemma handle_image_relays_answer_witness :
  exists w',
    handle_image plain opaque_repr sample_update
      (world_serving (Return (ok_response hello_response)) never_fails)
    = (Return tt, w')
    /\ called w'
       = [GetFile "AgAD"; Download "AgAD"; SendChatAction 42 "typing";
          ReplyText (PStr "hello")]
    /\ posted w'
       = [image_post "What is in this image?" [x4a; x46; x49; x46]]
    /\ log w' = [].
Proof.
  apply (handle_image_relays_answer plain opaque_repr sample_message sample_chat sample_user
           (world_serving (Return (ok_response hello_response)) never_fails)
           [] sample_photo hello_response (PStr "hello"));
    reflexivity.
Defined.

(** X14. A text message whose calls all succeed: the message is logged,
    the typing indicator is sent, the text is posted once as the prompt and
    the text the API answers with is the single reply. *)
Theorem handle_message_relays_answer
    (describe : pyexc -> string) (py_repr : pyval -> string)
    (m : message) (c : chat) (who : user) (w : world) (j v : pyval) :
  telegram w (length (called w)) = None ->
  telegram w (S (length (called w))) = None ->
  network w (length (posted w)) = Return (ok_response j) ->
  at_path (first_part ++ [Key "text"]) j = Some v ->
  exists w',
    handle_message describe py_repr (inbound m c who) w = (Return tt, w')
    /\ called w'
       = (called w ++ [SendChatAction (chat_id c) "typing";
                       ReplyText v])%list
    /\ posted w' = (posted w ++ [text_post (message_text m)])%list
    /\ exists line, log w' = (log w ++ [LogInfo line])%list.
Proof.
  intros H0 H1 Hnet Hv.
  rewrite handle_message_inbound. unfold answer_text, try_except, write_log. unfold mbind, M_bind.
  rewrite bot_api_accepted by exact H0.
  rewrite (call_gemini_api_answer _ _ j v) by assumption.
  unfold reply_text.
  rewrite bot_api_accepted
    by (cbn [called record_post telegram]; rewrite next_call; exact H1).
  eexists. split; [reflexivity|]. cbn. rewrite <- !app_assoc. eauto.
Qed.

Lemma handle_message_relays_answer_witness :
  exists w',
    handle_message plain opaque_repr sample_update
      (world_serving (Return (ok_response hello_response)) never_fails)
    = (Return tt, w')
    /\ called w' = [SendChatAction 42 "typing"; ReplyText (PStr "hello")]
    /\ posted w' = [text_post "What is the capital of France?"]
    /\ exists line, log w' = [LogInfo line].
Proof.
  apply (handle_message_relays_answer plain opaque_repr sample_message sample_chat sample_user
           (world_serving (Return (ok_response hello_response)) never_fails)
           hello_response (PStr "hello"));
    reflexivity.
Defined.

(** X15. When the first call to the chat platform is refused (the typing
    indicator of a text message, the file lookup of a photo), the
    exception leaves the handler before anything is posted to the
    inference API. *)
Theorem first_call_refused_nothing_posted
    (describe : pyexc -> string) (py_repr : pyval -> string)
    (m : message) (c : chat) (who : user) (w : world) (e : pyexc) :
  telegram w (length (called w)) = Some e ->
  (exists w',
     handle_message describe py_repr (inbound m c who) w = (Raise e, w')
     /\ posted w' = posted w
     /\ called w'
        = (called w ++ [SendChatAction (chat_id c) "typing"])%list)
  /\ (forall largest,
        last (message_photo m) = Some largest ->
        exists w',
          handle_image describe py_repr (inbound m c who) w = (Raise e, w')
          /\ posted w' = posted w
          /\ called w' = (called w ++ [GetFile (file_id largest)])%list).
Proof.
  intros Hrefused. split.
  - rewrite handle_message_inbound. unfold answer_text, write_log. unfold mbind, M_bind.
    rewrite (bot_api_refused _ _ e) by exact Hrefused.
    eexists. repeat split; reflexivity.
  - intros largest Hlast. rewrite handle_image_inbound. unfold answer_photo.
    rewrite Hlast.
    unfold mbind, M_bind.
    rewrite (bot_api_refused _ _ e) by exact Hrefused.
    eexists. repeat split; reflexivity.
Qed.

Lemma first_call_refused_nothing_posted_witness :
  exists w',
    handle_message plain opaque_repr sample_update
      (world_serving (Return (ok_response hello_response))
         (fails_at 0 (TelegramError "Timed out")))
    = (Raise (TelegramError "Timed out"), w')
    /\ posted w' = []
    /\ called w' = [SendChatAction 42 "typing"].
Proof.
  apply (first_call_refused_nothing_posted plain opaque_repr sample_message sample_chat sample_user
           (world_serving (Return (ok_response hello_response))
              (fails_at 0 (TelegramError "Timed out")))
           (TelegramError "Timed out")).
  reflexivity.
Defined.

Lemma handle_message_reply_failure_masked_witness :
  exists ai_response w',
    handle_message plain opaque_repr sample_update
      (world_serving (Return (ok_response hello_response))
         (fails_at 1 (TelegramError "Forbidden")))
    = (Return tt, w')
    /\ called w'
       = [SendChatAction 42 "typing";
          ReplyText (render plain opaque_repr ai_response);
          ReplyText (PStr "An error occurred while sending the reply.")]
    /\ In (LogError "Failed to send reply message: " (TelegramError "Forbidden"))
          (log w').
Proof.
  apply (handle_message_reply_failure_masked plain opaque_repr sample_message sample_chat sample_user
           (world_serving (Return (ok_response hello_response))
              (fails_at 1 (TelegramError "Forbidden")))
           (TelegramError "Forbidden"));
    reflexivity.
Defined.

Lemma handle_message_fallback_failure_propagates_witness :
  exists w',
    handle_message plain opaque_repr sample_update
      (world_serving (Return (ok_response hello_response))
         (fun k => if Nat.leb 1 k then Some (TelegramError "Forbidden")
                   else None))
    = (Raise (TelegramError "Forbidden"), w').
Proof.
  apply (handle_message_fallback_failure_propagates plain opaque_repr
           sample_message sample_chat sample_user
           (world_serving (Return (ok_response hello_response))
              (fun k => if Nat.leb 1 k then Some (TelegramError "Forbidden")
                        else None))
           (TelegramError "Forbidden") (TelegramError "Forbidden"));
    reflexivity.
Defined.

Lemma length_snoc {A} (l : list A) (x : A) : length (l ++ [x]) = S (length l).
Proof. rewrite length_app. cbn. lia. Qed.

Ltac tally :=
  eexists _, _; (split; [reflexivity|]);
  cbn [posted called record_call record_log record_post];
  repeat match goal with
  | H : posted _ = _ |- _ => rewrite H; clear H
  | H : called _ = _ |- _ => rewrite H; clear H
  end;
  cbn [posted called record_call record_log record_post];
  rewrite ?length_snoc; lia.

Lemma photo_bounds describe py_repr m c w :
  exists o w',
    answer_photo describe py_repr m c w = (o, w')
    /\ length (posted w') <= length (posted w) + 1
    /\ length (called w') <= length (called w) + 4.
Proof.
  unfold answer_photo, reply_text.
  destruct (last (message_photo m)) as [largest|].
  - unfold mbind, M_bind.
    unfold bot_api at 1.
    destruct (telegram w (length (called w))); [tally|].
    unfold bot_api at 1.
    destruct (telegram _ _); [tally|].
    unfold bot_api at 1.
    destruct (telegram _ _); [tally|].
    match goal with
    | |- context [call_gemini_with_image ?p ?b ?w1] =>
        destruct (call_gemini_with_image_returns p b w1)
          as (res & w2 & -> & Hposted & Hcalled & _)
    end.
    unfold bot_api. destruct (telegram w2 (length (called w2))); tally.
  - unfold bot_api. destruct (telegram w (length (called w))); tally.
Qed.

(** X16. Whatever the network and the chat platform do, one text message
    costs at most one POST to the inference API and at most three calls to
    the chat platform, and one photo at most one POST and four calls. *)
Theorem one_post_per_event
    (describe : pyexc -> string) (py_repr : pyval -> string)
    (u : update) (w : world) :
  (exists o w',
     handle_message describe py_repr u w = (o, w')
     /\ length (posted w') <= length (posted w) + 1
     /\ length (called w') <= length (called w) + 3)
  /\ (exists o w',
        handle_image describe py_repr u w = (o, w')
        /\ length (posted w') <= length (posted w) + 1
        /\ length (called w') <= length (called w) + 4).
Proof.
  destruct u as [[m|] [c|] [who|]];
    try (split; eexists _, _; (split; [reflexivity|]); cbn; lia).
  - change {| update_message := Some m; effective_chat := Some c;
              effective_user := Some who |} with (inbound m c who).
    split.
    + rewrite handle_message_inbound.
      unfold answer_text, try_except, write_log, reply_text.
      unfold mbind, M_bind.
      unfold bot_api at 1. cbn [telegram called record_log].
      destruct (telegram w (length (called w))); [tally|].
      match goal with
      | |- context [call_gemini_api ?p ?w1] =>
          destruct (call_gemini_api_returns p w1)
            as (res & w2 & -> & Hposted & Hcalled & _)
      end.
      unfold bot_api at 1.
      destruct (telegram w2 (length (called w2)));
        [unfold bot_api; destruct (telegram _ _)|]; tally.
    + rewrite handle_image_inbound. apply photo_bounds.
  - split; [eexists _, _; (split; [reflexivity|]); cbn; lia|].
    change (handle_image describe py_repr
              {| update_message := Some m; effective_chat := Some c;
                 effective_user := None |} w)
      with (answer_photo describe py_repr m c w).
    apply photo_bounds.
Qed.

(** ** What the text flow hands back *)

Lemma normalize_text_Text j v :
  normalize_text j = Return (Text v) ->
  at_path (first_part ++ [Key "text"]) j = Some v
  \/ v = PStr "No text found in the response.".
Proof.
  unfold normalize_text. intros H.
  apply bind_Return in H as (has_candidates & _ & H).
  destruct has_candidates.
  - apply bind_Return in H as (candidates & Hcs & H).
    apply py_item_Return in Hcs as (d & -> & Hd).
    apply bind_Return in H as (candidate & Hcand & H).
    apply bind_Return in H as (has_parts & _ & H).
    destruct has_parts.
    + apply bind_Return in H as (content & Hcontent & H).
      apply py_item_Return in Hcontent as (c & -> & Hcontent).
      apply bind_Return in H as (parts & Hparts & H).
      apply py_item_Return in Hparts as (ct & -> & Hparts).
      apply bind_Return in H as (part & Hpart & H).
      apply bind_Return in H as (text & Htext & H).
      apply py_get_Return in Htext as (p & -> & Htext).
      apply py_item0_dict in Hpart as (l & ->).
      apply py_item0_dict in Hcand as (l' & ->).
      injection H as <-.
      destruct Htext as [Htext | [_ ->]]; [left | right; reflexivity].
      cbn [first_part first_candidate app at_path select].
      rewrite Hd. cbn. rewrite Hcontent. cbn. rewrite Hparts. cbn.
      rewrite Htext. reflexivity.
    + apply bind_Return in H as ([] & _ & H);
        [apply bind_Return in H as (? & _ & H)|]; discriminate H.
  - apply bind_Return in H as ([] & _ & H);
      [repeat (apply bind_Return in H as (? & _ & H))|]; discriminate H.
Qed.

(** C2, as the specification states it, fails: the text flow does not
    always hand back one of the string-carrying variants.  On a response
    whose [text] is [null] it returns [None], which is no [str]. *)
Lemma text_flow_returns_non_string :
  ~ (forall describe py_repr prompt w j,
       network w (length (posted w)) = Return (ok_response j) ->
       exists res s,
         fst (call_gemini_api prompt w) = Return res
         /\ render describe py_repr res = PStr s).
Proof.
  intros claim.
  destruct (claim plain opaque_repr "hi"
              (world_serving (Return (ok_response null_text_response))
                 never_fails)
              null_text_response eq_refl) as (res & s & Hres & Hs).
  vm_compute in Hres. injection Hres as <-. discriminate Hs.
Qed.

(** C2, amended. Handed any JSON value in a successful response, the
    text flow returns one result and raises nothing: the result of the
    branches when they return, and the catch-all's result when they raise.
    What it returns is a string, except that a [Text] is the value found
    under [text] as it is, which need not be a string. *)
Theorem text_flow_total (describe : pyexc -> string)
    (py_repr : pyval -> string) (prompt : string) (w : world)
    (r : response) (j : pyval) :
  network w (length (posted w)) = Return r ->
  (200 <= status_code r < 300)%Z ->
  json r = Return j ->
  exists res w',
    call_gemini_api prompt w = (Return res, w')
    /\ (normalize_text j = Return res
        \/ exists e, normalize_text j = Raise e
                     /\ res = TransportError "Sorry, an error occurred: " e)
    /\ ((exists s, render describe py_repr res = PStr s)
        \/ exists v, res = Text v
                     /\ at_path (first_part ++ [Key "text"]) j = Some v
                     /\ forall s, v <> PStr s).
Proof.
  intros Hnet Hs Hj. rewrite call_gemini_api_eq, Hnet. cbn.
  rewrite (success_passes r Hs), Hj. cbn.
  destruct (normalize_text j) as [res|e] eqn:Hn; eexists _, _;
    (split; [reflexivity|]); (split; [eauto|]).
  - destruct res as [v| | | |]; try (left; eexists; reflexivity).
    destruct (normalize_text_Text j v Hn) as [Hpath | ->];
      [|left; eexists; reflexivity].
    destruct v; try (right; eexists; repeat split; [exact Hpath | discriminate]).
    left. eexists. reflexivity.
  - left. eexists. reflexivity.
Qed.

Lemma text_flow_total_witness :
  exists res w',
    call_gemini_api "hi" (world_serving (Return (ok_response (PInt 5)))
                            never_fails)
    = (Return res, w')
    /\ (normalize_text (PInt 5) = Return res
        \/ exists e, normalize_text (PInt 5) = Raise e
                     /\ res = TransportError "Sorry, an error occurred: " e)
    /\ ((exists s, render plain opaque_repr res = PStr s)
        \/ exists v, res = Text v
                     /\ at_path (first_part ++ [Key "text"]) (PInt 5) = Some v
                     /\ forall s, v <> PStr s).
Proof.
  apply (text_flow_total plain opaque_repr "hi" _ (ok_response (PInt 5))
           (PInt 5)).
  - reflexivity.
  - cbn. lia.
  - reflexivity.
Defined.

(** ** Updates without a message *)

(** X19. An update without a message (an edited message, a channel post)
    makes each handler raise [AttributeError] on its first attribute of
    [None]: nothing is logged, posted or sent. *)
Theorem update_without_message_raises
    (describe : pyexc -> string) (py_repr : pyval -> string)
    (u : update) (w : world) :
  update_message u = None ->
  handle_message describe py_repr u w
  = (Raise (AttributeError PNone "text"), w)
  /\ exists name,
       handle_image describe py_repr u w
       = (Raise (AttributeError PNone name), w).
Proof.
  destruct u as [[m|] [c|] who]; cbn [update_message]; intros H;
    try discriminate H; split; try reflexivity; eexists; reflexivity.
Qed.

Lemma update_without_message_raises_witness :
  handle_message plain opaque_repr edited_update
    (world_serving (Return (ok_response hello_response)) never_fails)
  = (Raise (AttributeError PNone "text"),
     world_serving (Return (ok_response hello_response)) never_fails).
Proof.
  apply (update_without_message_raises plain opaque_repr edited_update
           (world_serving (Return (ok_response hello_response)) never_fails)).
  reflexivity.
Defined.
